(** * synctranslations: the management command that deletes stale translations

    A shallow embedding of
    [translations/management/commands/synctranslations.py]
    ([Command.handle]) and the properties of its reconciliation rule,
    its report and its confirmation step.

    The Django collaborators are modelled by what the command observes of
    them: the application registry and the content-type table are lists of
    records, a [Q] object is a syntax tree with the evaluation the ORM gives
    it, the [Translation] table is the mutable store, and the two output
    streams, the prompt and the bulk delete are events of a trace. *)

From Stdlib Require Import String Ascii List ZArith Bool Lia Permutation.
Import ListNotations.

Local Open Scope string_scope.
Local Open Scope list_scope.

(** ** Data model *)

(** A model class, as far as the command looks at it: its [__name__], and
    whether it is a subclass of [Translatable].  [translatable_fields] is
    [None] for a class that is not a subclass of [Translatable], and
    [Some l] for a subclass, [l] being what
    [model._get_translatable_fields_names()] returns ([translations.models]
    is not part of this file's source, so the result of the call is data). *)
Record Model := {
  __name__ : string;
  translatable_fields : option (list string)
}.

(** [issubclass(model, Translatable)] *)
Definition issubclass_Translatable (model : Model) : bool :=
  match translatable_fields model with Some _ => true | None => false end.

(** [model._get_translatable_fields_names()], called on subclasses only. *)
Definition _get_translatable_fields_names (model : Model) : list string :=
  match translatable_fields model with Some l => l | None => [] end.

(** A row of [django_content_type].  [model_class()] returns [None] when the
    model the row names is no longer installed. *)
Record ContentType := {
  ct_pk : nat;
  ct_app_label : string;
  model_class : option Model
}.

(** [apps.get_app_configs()] yields these. *)
Record AppConfig := { label : string }.

(** A row of the [Translation] table: the content type it belongs to, the
    name of the translated field, and the rest of the row. *)
Record Translation := {
  content_type : ContentType;
  field : string;
  payload : string
}.

(** ** Q objects *)

Inductive Q : Type :=
| Q_empty                              (* Q() *)
| Q_content_type (ct : ContentType)    (* Q(content_type=ct) *)
| Q_field_in (fields : list string)    (* Q(field__in=fields) *)
| Q_and (a b : Q)
| Q_or (a b : Q)
| Q_not (a : Q).

(** [bool(q)]: a [Q] is falsy exactly when it has no children. *)
Definition Q_bool (q : Q) : bool :=
  match q with Q_empty => false | _ => true end.

(** [a | b] and [a & b]: combining with an empty [Q] gives the other one. *)
Definition Q__or__ (a b : Q) : Q :=
  if negb (Q_bool b) then a
  else if negb (Q_bool a) then b
  else Q_or a b.

Definition Q__and__ (a b : Q) : Q :=
  if negb (Q_bool b) then a
  else if negb (Q_bool a) then b
  else Q_and a b.

(** [~a] *)
Definition Q__invert__ (a : Q) : Q := Q_not a.

(** Whether a row satisfies a [Q].  [content_type=ct] compares the foreign
    key with [ct]'s primary key; [field__in=l] is membership, so that it
    holds of no row when [l] is empty; the empty [Q] restricts nothing. *)
Fixpoint matches (q : Q) (row : Translation) : bool :=
  match q with
  | Q_empty => true
  | Q_content_type ct => Nat.eqb (ct_pk (content_type row)) (ct_pk ct)
  | Q_field_in fields => existsb (String.eqb (field row)) fields
  | Q_and a b => matches a row && matches b row
  | Q_or a b => matches a row || matches b row
  | Q_not a => negb (matches a row)
  end.

(** [Translation.objects.filter(query)] evaluated on a table.  The list
    [table] holds the rows in the order the database yields them (the
    queryset has no [order_by]), and the rows selected come in that order. *)
Definition objects_filter (query : Q) (table : list Translation)
  : list Translation :=
  filter (matches query) table.

(** What [queryset.delete()] leaves in the table. *)
Definition objects_delete (query : Q) (table : list Translation)
  : list Translation :=
  filter (fun row => negb (matches query row)) table.

(** ** Exceptions, events and the command monad *)

Inductive Exception : Type :=
| CommandError (msg : string)
| TypeError
| AttributeError
| EOFError
| KeyboardInterrupt
| NotRunningInTTYException (msg : string)
| SystemExit (code : Z).

(** [self.style.SUCCESS], [self.style.NOTICE], or no style. *)
Inductive Style : Type := PLAIN | SUCCESS | NOTICE.

Inductive Event : Type :=
| EvQuery (query : Q)                       (* the queryset is evaluated *)
| EvStdout (style : Style) (msg : string)   (* self.stdout.write *)
| EvStderr (msg : string)                   (* self.stderr.write *)
| EvInput (prompt : string)                 (* input(prompt) *)
| EvDelete (query : Q).                     (* queryset.delete() *)

(** What the command changes: the table and the trace of what it did. *)
Record World := {
  store : list Translation;
  trace : list Event
}.

(** How a piece of the body of [handle] ends: it falls through with a
    value, it executes [return v] ([v] is [None], [True] or [False]), or it
    raises. *)
Inductive Completion (A : Type) : Type :=
| Normal (a : A)
| Return (v : option bool)
| Raise (e : Exception).

Arguments Normal {A} a.
Arguments Return {A} v.
Arguments Raise {A} e.

Definition Cmd (A : Type) : Type := World -> Completion A * World.

Definition ret {A} (a : A) : Cmd A := fun w => (Normal a, w).

Definition bind {A B} (c : Cmd A) (k : A -> Cmd B) : Cmd B :=
  fun w =>
    match c w with
    | (Normal a, w') => k a w'
    | (Return v, w') => (Return v, w')
    | (Raise e, w') => (Raise e, w')
    end.

Declare Scope cmd_scope.
Delimit Scope cmd_scope with cmd.

Notation "x <- c ;; k" := (bind c (fun x => k))
  (at level 61, c at next level, right associativity) : cmd_scope.
Notation "c ;; k" := (bind c (fun _ => k))
  (at level 61, right associativity) : cmd_scope.

Local Open Scope cmd_scope.

Definition raise {A} (e : Exception) : Cmd A := fun w => (Raise e, w).

Definition return_ {A} (v : option bool) : Cmd A := fun w => (Return v, w).

(** A step that cannot change the world: it either gives a value or
    raises. *)
Definition lift {A} (r : Exception + A) : Cmd A :=
  match r with
  | inl e => raise e
  | inr a => ret a
  end.

Definition emit (e : Event) : Cmd unit :=
  fun w => (Normal tt, {| store := store w; trace := trace w ++ [e] |}).

Definition stdout_write (style : Style) (msg : string) : Cmd unit :=
  emit (EvStdout style msg).

Definition stderr_write (msg : string) : Cmd unit :=
  emit (EvStderr msg).

(** [try: body except ...: handler].  [handlers e] is the handler of the
    first [except] clause that catches [e], if one does. *)
Definition try_except {A} (body : Cmd A)
  (handlers : Exception -> option (Cmd A)) : Cmd A :=
  fun w =>
    match body w with
    | (Raise e, w') =>
        match handlers e with
        | Some handler => handler w'
        | None => (Raise e, w')
        end
    | r => r
    end.

(** Evaluating the queryset reads the table. *)
Definition evaluate (query : Q) : Cmd (list Translation) :=
  fun w =>
    (Normal (objects_filter query (store w)),
     {| store := store w; trace := trace w ++ [EvQuery query] |}).

(** [queryset.delete()]: one bulk delete of the rows that satisfy the
    queryset's filter. *)
Definition delete (query : Q) : Cmd unit :=
  fun w =>
    (Normal tt,
     {| store := objects_delete query (store w);
        trace := trace w ++ [EvDelete query] |}).

(** ** Python values the command uses *)

(** [str.lower()].  The command compares the result with the ASCII words
    ["y"], ["yes"], ["n"], ["no"] and the empty string only, and no
    character outside ASCII lowercases to a letter of these words, so the
    ASCII letters are the ones that matter. *)
Definition lower_ascii (c : ascii) : ascii :=
  let n := nat_of_ascii c in
  if (Nat.leb 65 n && Nat.leb n 90)%bool then ascii_of_nat (n + 32) else c.

Fixpoint lower (s : string) : string :=
  match s with
  | EmptyString => EmptyString
  | String c rest => String (lower_ascii c) (lower rest)
  end.

(** [x in l] for a list of strings. *)
Definition str_in (x : string) (l : list string) : bool :=
  existsb (String.eqb x) l.

(** The newline character of a Python string literal. *)
Definition nl : string := String (ascii_of_nat 10) EmptyString.

(** A [set] of strings: its elements, without duplicates, in the order they
    were added.  That order is the representation only: what a loop over the
    set (here [', '.join(fields)]) visits first is decided by the hash table
    behind the set, so the iteration order is a parameter [set_iter] of the
    command, and [set_order_ok] is what Python promises of it. *)
Definition PySet : Type := list string.

Definition set_add (s : PySet) (x : string) : PySet :=
  if str_in x s then s else s ++ [x].

Definition set_order_ok (set_iter : PySet -> list string) : Prop :=
  forall s : PySet, Permutation (set_iter s) s.

(** A [dict] from strings to sets, in insertion order. *)
Definition PyDict : Type := list (string * PySet).

(** [d.setdefault(k, v)], for its effect on [d]. *)
Fixpoint dict_setdefault (d : PyDict) (k : string) (v : PySet) : PyDict :=
  match d with
  | [] => [(k, v)]
  | (k', v') :: rest =>
      if String.eqb k' k then d else (k', v') :: dict_setdefault rest k v
  end.

(** [d[k].add(x)], for a key [k] of [d]. *)
Fixpoint dict_add (d : PyDict) (k : string) (x : string) : PyDict :=
  match d with
  | [] => []
  | (k', v') :: rest =>
      if String.eqb k' k then (k', set_add v' x) :: rest
      else (k', v') :: dict_add rest k x
  end.

(** ** The environment of a run *)

(** [stdin_isatty] is [None] when [self.stdin] has no [isatty] attribute and
    otherwise what [self.stdin.isatty()] answers; [stdin_input] is how
    [input(...)] ends: with the line the user entered, or with the exception
    it raises ([KeyboardInterrupt], [EOFError]). *)
Record Env := {
  get_app_configs : list AppConfig;
  ContentType_objects : list ContentType;
  stdin_isatty : option bool;
  stdin_input : Exception + string
}.

Record Options := {
  verbosity : Z;
  interactive : bool;
  app_label : option string
}.

(** Truth value of [options['app_label']]: [None] and [''] are falsy. *)
Definition app_label_given (app_label : option string) : bool :=
  match app_label with
  | Some l => negb (String.eqb l "")
  | None => false
  end.

Definition app_label_str (app_label : option string) : string :=
  match app_label with Some l => l | None => "" end.

(** ** The command, stage by stage *)

(** validate app label and get the models (content types).  The list
    [ContentType_objects env] holds the content types in the order the
    database yields them, and the scope keeps that order. *)
Definition get_content_types (env : Env) (app_label : option string)
  : Exception + list ContentType :=
  if app_label_given app_label then
    let app_label := app_label_str app_label in
    if existsb (fun app_config => String.eqb (label app_config) app_label)
         (get_app_configs env)
    then inr (filter (fun ct => String.eqb (ct_app_label ct) app_label)
                (ContentType_objects env))
    else inl (CommandError ("App '" ++ app_label ++ "' is not found."))
  else inr (ContentType_objects env).

(** The predicate of one content type. *)
Definition model_query (content_type : ContentType) (model : Model) : Q :=
  if issubclass_Translatable model then
    let translatable_fields := _get_translatable_fields_names model in
    Q__and__ (Q_content_type content_type)
             (Q__invert__ (Q_field_in translatable_fields))
  else Q_content_type content_type.

(** fetch the translations to delete: the loop over [content_types], from
    the [query] built so far.  [issubclass(None, Translatable)] raises
    [TypeError]. *)
Fixpoint build_query (content_types : list ContentType) (query : Q)
  : Exception + Q :=
  match content_types with
  | [] => inr query
  | content_type :: rest =>
      match model_class content_type with
      | None => inl TypeError
      | Some model =>
          build_query rest (Q__or__ query (model_query content_type model))
      end
  end.

(** The query of a run: the content types in scope, then the loop over them
    from [Q()]. *)
Definition fetch_query (env : Env) (app_label : option string)
  : Exception + Q :=
  match get_content_types env app_label with
  | inl e => inl e
  | inr content_types => build_query content_types Q_empty
  end.

(** The loop that fills [changes].  [None.__name__] raises
    [AttributeError]. *)
Fixpoint collect_changes (queryset : list Translation) (changes : PyDict)
  : Exception + PyDict :=
  match queryset with
  | [] => inr changes
  | instance :: rest =>
      match model_class (content_type instance) with
      | None => inl AttributeError
      | Some model =>
          let model_name := __name__ model in
          let changes := dict_setdefault changes model_name [] in
          let changes := dict_add changes model_name (field instance) in
          collect_changes rest changes
      end
  end.

(** One line of [change_list], from the field names as the loop over the set
    yields them, the size of the set and the model name. *)
Definition change_line (joined : list string) (len : nat) (model : string)
  : string :=
  "- '" ++ String.concat ", " joined ++ "' field"
        ++ (if Nat.ltb 1 len then "s" else "")
        ++ " in '" ++ model ++ "' model".

Definition change_list (set_iter : PySet -> list string) (changes : PyDict)
  : list string :=
  map (fun '(model, fields) =>
         change_line (set_iter fields) (length fields) model)
      changes.

(** tell user what will be deleted *)
Definition tell_user (set_iter : PySet -> list string) (verbosity : Z)
  (queryset : list Translation) : Cmd unit :=
  if (1 <=? verbosity)%Z then
    changes <- lift (collect_changes queryset []) ;;
    stdout_write PLAIN "The translations for the following will be deleted:" ;;
    stdout_write PLAIN (String.concat nl (change_list set_iter changes))
  else ret tt.

Definition prompt : string :=
  "Are you sure you want to synchronize translations? [Y/n] ".

(** [input(prompt)] *)
Definition input (env : Env) (prompt : string) : Cmd string :=
  emit (EvInput prompt) ;; lift (stdin_input env).

(** [raw_value] once the line is read: lowercased, and ["y"] by default. *)
Definition raw_value (line : string) : string :=
  let raw_value := lower line in
  (* default *)
  if String.eqb raw_value "" then "y" else raw_value.

(** The body of [while run is None:].  Each of its paths leaves [handle]
    with a [return] (or raises), which its type records: it has no value to
    fall through with. *)
Definition ask (env : Env) : Cmd Empty_set :=
  line <- input env prompt ;;
  let raw_value := raw_value line in
  (* yes or no? *)
  if str_in raw_value ["y"; "yes"] then return_ (Some true)
  else if str_in raw_value ["n"; "no"] then return_ (Some false)
  else return_ None.

(** [while run is None: body], entered with [run] being [None]: the body
    runs, and never comes back to the test. *)
Definition while_run_is_None {A} (body : Cmd Empty_set) : Cmd A :=
  e <- body ;; match e return Cmd A with end.

Definition not_a_tty (env : Env) : bool :=
  match stdin_isatty env with
  | Some isatty => negb isatty       (* hasattr(...) and not isatty() *)
  | None => false
  end.

(** The [if interactive: ... else: run = True] block; its value is [run]. *)
Definition confirm (env : Env) (interactive : bool) : Cmd (option bool) :=
  if interactive then
    let run : option bool := None in
    try_except
      ((if not_a_tty env
        then raise (NotRunningInTTYException "Not running in a TTY")
        else ret tt) ;;
       while_run_is_None (ask env))
      (fun e =>
         match e with
         | KeyboardInterrupt =>
             Some (stderr_write (nl ++ "Operation cancelled.") ;;
                   raise (SystemExit 1))
         | NotRunningInTTYException _ =>
             Some (stdout_write PLAIN
                     ("Synchronizing translations skipped due to not running in a TTY. "
                      ++ "You can run `manage.py synctranslations` in your project "
                      ++ "to synchronize translations manually.") ;;
                   ret run)
         | _ => None
         end)
  else ret (Some true).

(** Truth value of [run]. *)
Definition run_truthy (run : option bool) : bool :=
  match run with Some true => true | _ => false end.

Definition handle (set_iter : PySet -> list string) (env : Env)
  (options : Options) : Cmd unit :=
  query <- lift (fetch_query env (app_label options)) ;;
  queryset <- evaluate query ;;
  (* synchronize if there's anything to do so *)
  match queryset with
  | _ :: _ =>
      tell_user set_iter (verbosity options) queryset ;;
      run <- confirm env (interactive options) ;;
      if run_truthy run then
        delete query ;;
        stdout_write SUCCESS "Successfully synchronized translations."
      else
        stdout_write NOTICE "Synchronizing translations cancelled."
  | [] =>
      stdout_write SUCCESS "No translations to synchronize."
  end.

(** How a call of [handle] ends. *)
Inductive Result : Type :=
| Returned (v : option bool)
| Raised (e : Exception).

Record Outcome := {
  result : Result;
  table_after : list Translation;
  events : list Event
}.

(** [handle] run on a table, from an empty trace. *)
Definition run_handle (set_iter : PySet -> list string) (env : Env)
  (table : list Translation) (options : Options) : Outcome :=
  match handle set_iter env options {| store := table; trace := [] |} with
  | (Normal _, w) =>
      {| result := Returned None; table_after := store w; events := trace w |}
  | (Return v, w) =>
      {| result := Returned v; table_after := store w; events := trace w |}
  | (Raise e, w) =>
      {| result := Raised e; table_after := store w; events := trace w |}
  end.

(** ** Well-formedness of the tables *)

(** The primary key of [django_content_type] identifies the row. *)
Definition pk_unique (content_types : list ContentType) : Prop :=
  forall a b, In a content_types -> In b content_types ->
              ct_pk a = ct_pk b -> a = b.

(** The content type still has its model installed. *)
Definition has_model_class (ct : ContentType) : Prop :=
  model_class ct <> None.

(** What the loop of [build_query] adds for a row: some content type in
    scope claims the row as stale. *)
Definition stale_in (content_types : list ContentType) (row : Translation)
  : bool :=
  existsb (fun ct =>
             match model_class ct with
             | Some model => matches (model_query ct model) row
             | None => false
             end)
          content_types.

(** The rows of a queryset whose content type still has its model. *)
Definition row_has_model_class (row : Translation) : Prop :=
  has_model_class (content_type row).

(** The events of the step that tells the user what will be deleted. *)
Definition is_report (e : Event) : Prop :=
  exists msg, e = EvStdout PLAIN msg.

(** ** The report, as a grouping of the candidate rows *)

(** The elements of a list, each once, in order of first appearance: the set
    one gets by adding them one after the other. *)
Definition distinct (l : list string) : PySet :=
  fold_left set_add l [].

(** The name the report gives to the record type of a row. *)
Definition model_name_of (row : Translation) : string :=
  match model_class (content_type row) with
  | Some model => __name__ model
  | None => ""
  end.

(** The names the report has a line for, and the set of field names on the
    line of a name. *)
Definition model_names (queryset : list Translation) : list string :=
  distinct (map model_name_of queryset).

Definition fields_of (name : string) (queryset : list Translation) : PySet :=
  distinct
    (map field
         (filter (fun row => String.eqb (model_name_of row) name) queryset)).

(** The candidate rows grouped by name. *)
Definition grouped (queryset : list Translation) : PyDict :=
  map (fun name => (name, fields_of name queryset)) (model_names queryset).

(** The line of a name, with the field names in the order the set gives. *)
Definition report_line (set_iter : PySet -> list string)
  (queryset : list Translation) (name : string) : string :=
  change_line (set_iter (fields_of name queryset))
              (length (fields_of name queryset)) name.

(** The report as the specification words it: one line per record type among
    the candidate rows, with the field names of the rows of that type in
    order of first appearance.  [spec_record_types] lists the content types
    of the rows, each once, skipping the primary keys in [seen]. *)
Fixpoint spec_record_types (queryset : list Translation) (seen : list nat)
  : list ContentType :=
  match queryset with
  | [] => []
  | row :: rest =>
      let pk := ct_pk (content_type row) in
      if existsb (Nat.eqb pk) seen then spec_record_types rest seen
      else content_type row :: spec_record_types rest (pk :: seen)
  end.

Definition spec_fields_of (ct : ContentType) (queryset : list Translation)
  : list string :=
  distinct
    (map field
         (filter (fun row => Nat.eqb (ct_pk (content_type row)) (ct_pk ct))
                 queryset)).

Definition spec_change_list (queryset : list Translation) : list string :=
  map (fun ct =>
         let fields := spec_fields_of ct queryset in
         change_line fields (length fields)
                     (match model_class ct with
                      | Some model => __name__ model
                      | None => ""
                      end))
      (spec_record_types queryset []).

(** ** Example data *)

Definition Article : Model :=
  {| __name__ := "Article"; translatable_fields := Some ["title"; "body"] |}.

Definition LegacyPage : Model :=
  {| __name__ := "LegacyPage"; translatable_fields := None |}.

Definition article_type : ContentType :=
  {| ct_pk := 1; ct_app_label := "blog"; model_class := Some Article |}.

Definition legacy_type : ContentType :=
  {| ct_pk := 2; ct_app_label := "pages"; model_class := Some LegacyPage |}.

Definition row_of (ct : ContentType) (name : string) : Translation :=
  {| content_type := ct; field := name; payload := "" |}.

Definition example_table : list Translation :=
  [ row_of article_type "title"; row_of article_type "body";
    row_of article_type "subtitle";
    row_of legacy_type "title"; row_of legacy_type "caption" ].

(** A project with the applications [blog] and [pages], run from a terminal
    or not, with what [input] gives. *)
Definition example_env (isatty : bool) (answer : Exception + string) : Env :=
  {| get_app_configs := [ {| label := "blog" |}; {| label := "pages" |} ];
     ContentType_objects := [article_type; legacy_type];
     stdin_isatty := Some isatty;
     stdin_input := answer |}.

(** The query the command builds for the two content types, and the rows it
    selects in [example_table]. *)
Definition example_query : Q :=
  Q_or (Q_and (Q_content_type article_type)
              (Q_not (Q_field_in ["title"; "body"])))
       (Q_content_type legacy_type).

Definition example_stale : list Translation :=
  [ row_of article_type "subtitle";
    row_of legacy_type "title"; row_of legacy_type "caption" ].

Definition options_of (verbosity : Z) (interactive : bool)
  (app_label : option string) : Options :=
  {| verbosity := verbosity; interactive := interactive;
     app_label := app_label |}.

(** A translatable model that has no translatable field. *)
Definition Bare : Model :=
  {| __name__ := "Bare"; translatable_fields := Some [] |}.

Definition bare_type : ContentType :=
  {| ct_pk := 5; ct_app_label := "blog"; model_class := Some Bare |}.

(** Two applications with a model named [Comment] each. *)
Definition Comment : Model :=
  {| __name__ := "Comment"; translatable_fields := None |}.

Definition blog_comment_type : ContentType :=
  {| ct_pk := 3; ct_app_label := "blog"; model_class := Some Comment |}.

Definition forum_comment_type : ContentType :=
  {| ct_pk := 4; ct_app_label := "forum"; model_class := Some Comment |}.

Definition comments_table : list Translation :=
  [ row_of blog_comment_type "text"; row_of forum_comment_type "body" ].

(** A set that is iterated in the order its elements were added, and one
    that is iterated the other way round. *)
Definition insertion_order : PySet -> list string := fun s => s.

Definition reverse_order : PySet -> list string := fun s => rev s.

(** The same run with another answer at the prompt. *)
Definition with_input (env : Env) (answer : Exception + string) : Env :=
  {| get_app_configs := get_app_configs env;
     ContentType_objects := ContentType_objects env;
     stdin_isatty := stdin_isatty env;
     stdin_input := answer |}.

(** ** Variants of a run, and what a run can be observed to do *)

(** What telling the user comes to: the events it writes, or the exception
    the loop over the queryset raises. *)
Definition report_of (set_iter : PySet -> list string) (verbosity : Z)
  (queryset : list Translation) : Exception + list Event :=
  if (1 <=? verbosity)%Z then
    match collect_changes queryset [] with
    | inl e => inl e
    | inr changes =>
        inr [ EvStdout PLAIN
                "The translations for the following will be deleted:";
              EvStdout PLAIN
                (String.concat nl (change_list set_iter changes)) ]
    end
  else inr [].

(** The message of the [except NotRunningInTTYException] clause. *)
Definition tty_skip_message : string :=
  "Synchronizing translations skipped due to not running in a TTY. "
  ++ "You can run `manage.py synctranslations` in your project "
  ++ "to synchronize translations manually.".

(** The value [handle] returns for a line read at the prompt. *)
Definition answer_of (line : string) : option bool :=
  if str_in (raw_value line) ["y"; "yes"] then Some true
  else if str_in (raw_value line) ["n"; "no"] then Some false
  else None.

(** The same run with another answer of [self.stdin.isatty], and the same
    options at another verbosity. *)
Definition with_isatty (env : Env) (isatty : option bool) : Env :=
  {| get_app_configs := get_app_configs env;
     ContentType_objects := ContentType_objects env;
     stdin_isatty := isatty;
     stdin_input := stdin_input env |}.

Definition with_app_label (options : Options) (app_label : option string)
  : Options :=
  {| verbosity := verbosity options;
     interactive := interactive options;
     app_label := app_label |}.

Definition with_verbosity (options : Options) (verbosity : Z) : Options :=
  {| verbosity := verbosity;
     interactive := interactive options;
     app_label := app_label options |}.

(** The prompts of a trace. *)
Definition is_input (e : Event) : bool :=
  match e with EvInput _ => true | _ => false end.

Definition prompts (trace : list Event) : list Event :=
  filter is_input trace.

(** A project with an application [tools] that has no model, and a content
    type left behind by a model that was removed. *)
Definition gone_type : ContentType :=
  {| ct_pk := 9; ct_app_label := "old"; model_class := None |}.

Definition tools_env : Env :=
  {| get_app_configs := [ {| label := "blog" |}; {| label := "tools" |} ];
     ContentType_objects := [article_type; gone_type];
     stdin_isatty := Some true;
     stdin_input := inr "" |}.

(** * Properties *)

(** ** The stale-row predicate *)

Section Predicate.

Lemma model_query_nonempty (ct : ContentType) (model : Model) :
  Q_bool (model_query ct model) = true.
Proof.
  unfold model_query.
  destruct (issubclass_Translatable model); reflexivity.
Qed.

Lemma matches_or (a b : Q) (row : Translation) :
  Q_bool b = true ->
  matches (Q__or__ a b) row
  = ((Q_bool a && matches a row) || matches b row)%bool.
Proof.
  intros Hb. unfold Q__or__. rewrite Hb. simpl.
  destruct (Q_bool a) eqn:Ha; simpl; reflexivity.
Qed.

Lemma or_nonempty (a b : Q) : Q_bool b = true -> Q_bool (Q__or__ a b) = true.
Proof.
  intros Hb. unfold Q__or__. rewrite Hb. simpl.
  destruct (Q_bool a) eqn:Ha; simpl; auto.
Qed.

Lemma matches_model_query (ct : ContentType) (model : Model)
      (row : Translation) :
  matches (model_query ct model) row
  = (Nat.eqb (ct_pk (content_type row)) (ct_pk ct)
     && match translatable_fields model with
        | Some fields => negb (existsb (String.eqb (field row)) fields)
        | None => true
        end)%bool.
Proof.
  unfold model_query, issubclass_Translatable, _get_translatable_fields_names.
  destruct (translatable_fields model) as [fields|]; simpl.
  - reflexivity.
  - now rewrite andb_true_r.
Qed.

(** The loop succeeds when every content type in scope has its model. *)
Lemma build_query_total (cts : list ContentType) :
  Forall has_model_class cts ->
  forall q0, exists q, build_query cts q0 = inr q.
Proof.
  induction 1 as [|ct rest Hct _ IH]; intros q0; simpl.
  - now exists q0.
  - destruct (model_class ct) as [model|] eqn:E.
    + apply IH.
    + now elim Hct.
Qed.

(** What the query built by the loop selects. *)
Lemma build_query_matches (cts : list ContentType) :
  forall q0 q, build_query cts q0 = inr q ->
  forall row,
    matches q row
    = match cts with
      | [] => matches q0 row
      | _ :: _ => ((Q_bool q0 && matches q0 row) || stale_in cts row)%bool
      end.
Proof.
  induction cts as [|ct rest IH]; intros q0 q Hq row; simpl in Hq.
  - now inversion Hq.
  - destruct (model_class ct) as [model|] eqn:E; [|discriminate].
    rewrite (IH _ _ Hq row).
    pose proof (model_query_nonempty ct model) as Hne.
    unfold stale_in at 2. simpl. rewrite E. fold (stale_in rest row).
    destruct rest as [|ct' rest'].
    + rewrite matches_or by exact Hne. simpl.
      now rewrite orb_false_r.
    + rewrite or_nonempty by exact Hne.
      rewrite matches_or by exact Hne. simpl.
      now rewrite <- !orb_assoc.
Qed.

Lemma str_in_In (x : string) (l : list string) :
  existsb (String.eqb x) l = true <-> In x l.
Proof.
  rewrite existsb_exists. split.
  - intros (y & Hy & E). apply String.eqb_eq in E. now subst.
  - intros H. exists x. split; [exact H | apply String.eqb_refl].
Qed.

Lemma get_content_types_incl (env : Env) (app_label : option string)
      (cts : list ContentType) :
  get_content_types env app_label = inr cts ->
  incl cts (ContentType_objects env).
Proof.
  unfold get_content_types.
  destruct (app_label_given app_label).
  - destruct (existsb _ _); [|discriminate].
    intros H; inversion H; subst. intros ct Hct.
    now apply filter_In in Hct.
  - intros H; inversion H; subst. apply incl_refl.
Qed.

(** In a scope whose primary keys are unique, the rows of a content type
    of the scope are claimed by that content type alone. *)
Lemma stale_in_unique (cts : list ContentType) (ct : ContentType)
      (model : Model) (row : Translation) :
  pk_unique cts -> In ct cts -> model_class ct = Some model ->
  ct_pk (content_type row) = ct_pk ct ->
  stale_in cts row = matches (model_query ct model) row.
Proof.
  intros Hpk Hin Hm Hrow.
  destruct (matches (model_query ct model) row) eqn:E.
  - unfold stale_in. apply existsb_exists. exists ct.
    split; [exact Hin|]. now rewrite Hm.
  - destruct (stale_in cts row) eqn:S; [|reflexivity].
    unfold stale_in in S. apply existsb_exists in S.
    destruct S as (ct' & Hin' & H').
    destruct (model_class ct') as [model'|] eqn:Hm'; [|discriminate].
    assert (Hpk' : ct_pk (content_type row) = ct_pk ct').
    { rewrite matches_model_query in H'.
      apply andb_true_iff in H'. apply Nat.eqb_eq. tauto. }
    assert (ct' = ct) by (apply Hpk; [assumption..|congruence]).
    subst ct'. congruence.
Qed.

End Predicate.

(** A scope without content types (an application that has no model) leaves
    the query empty, and the empty query selects every row of the table. *)
Lemma empty_scope_selects_every_row (table : list Translation) :
  build_query [] Q_empty = inr Q_empty
  /\ objects_filter Q_empty table = table.
Proof.
  split; [reflexivity|].
  unfold objects_filter. induction table as [|row rest IH]; simpl;
    [reflexivity | now f_equal].
Qed.

(** C2: when the scope holds no content type (the label of an application
    that has no model), the loop leaves the query empty and every row of the
    table is a candidate, a row whose field is in the non-empty set its
    model declares among them. *)
Theorem C2_empty_scope_selects_declared_fields :
  forall (env : Env) (app_label : option string) (table : list Translation)
         (row : Translation) (model : Model) (F : list string),
    get_content_types env app_label = inr [] ->
    In row table ->
    model_class (content_type row) = Some model ->
    translatable_fields model = Some F ->
    F <> [] ->
    In (field row) F ->
    fetch_query env app_label = inr Q_empty
    /\ In row (objects_filter Q_empty table).
Proof.
  intros env app_label table row model F Hcts Hin _ _ _ _. split.
  - unfold fetch_query. now rewrite Hcts.
  - now rewrite (proj2 (empty_scope_selects_every_row table)).
Qed.

(** X18: for every record type in scope, the candidate set holds exactly
    the rows of that type whose field name is not among the type's declared
    translatable fields, and every row of a type that declares none; no row
    of a type in scope whose field is in the declared set is selected. *)
Theorem X18_candidates_in_scope_are_the_stale_rows :
  forall (env : Env) (app_label : option string) (cts : list ContentType)
         (table : list Translation),
    pk_unique (ContentType_objects env) ->
    get_content_types env app_label = inr cts ->
    Forall has_model_class cts ->
    exists query,
      fetch_query env app_label = inr query /\
      forall ct model row,
        In ct cts -> model_class ct = Some model ->
        ct_pk (content_type row) = ct_pk ct ->
        match translatable_fields model with
        | Some F =>
            (In row (objects_filter query table)
             <-> In row table /\ ~ In (field row) F)
            /\ (F <> [] -> In (field row) F ->
                ~ In row (objects_filter query table))
        | None =>
            In row (objects_filter query table) <-> In row table
        end.
Proof.
  intros env app_label cts table Hpk Hcts Hall.
  destruct (build_query_total cts Hall Q_empty) as [query Hq].
  exists query. split.
  - unfold fetch_query. now rewrite Hcts.
  - intros ct model row Hin Hm Hrow.
    assert (Hpk' : pk_unique cts).
    { intros a b Ha Hb. apply Hpk; now apply (get_content_types_incl _ _ _ Hcts). }
    assert (Hsel : matches query row = matches (model_query ct model) row).
    { rewrite (build_query_matches cts _ _ Hq row).
      destruct cts as [|c cs]; [contradiction|].
      cbn [Q_bool andb orb]. now apply stale_in_unique. }
    rewrite matches_model_query in Hsel.
    apply Nat.eqb_eq in Hrow. rewrite Hrow in Hsel. simpl in Hsel.
    unfold objects_filter.
    destruct (translatable_fields model) as [F|].
    + assert (Hiff : In row (filter (matches query) table)
                     <-> In row table /\ ~ In (field row) F).
      { rewrite filter_In, Hsel, negb_true_iff.
        rewrite <- str_in_In, <- not_true_iff_false. tauto. }
      split; [exact Hiff|]. intros _ HF Hsel'. apply Hiff in Hsel'. tauto.
    + rewrite filter_In, Hsel. tauto.
Qed.

(** C10: a subclass of [Translatable] whose translatable fields are the
    empty list gets the predicate of a class that is not translatable: it
    holds of the same rows, and every row of that type is a candidate. *)
Theorem C10_empty_field_list_selects_every_row :
  forall (ct : ContentType) (model : Model),
    translatable_fields model = Some [] ->
    (forall row,
        matches (model_query ct model) row
        = matches (model_query ct {| __name__ := __name__ model;
                                     translatable_fields := None |}) row)
    /\ (forall cts query table row,
           In ct cts -> model_class ct = Some model ->
           build_query cts Q_empty = inr query ->
           In row table -> ct_pk (content_type row) = ct_pk ct ->
           In row (objects_filter query table)).
Proof.
  intros ct model Hempty. split.
  - intros row. rewrite !matches_model_query. simpl. now rewrite Hempty.
  - intros cts query table row Hin Hm Hq Hrow Hpk.
    unfold objects_filter. apply filter_In. split; [exact Hrow|].
    rewrite (build_query_matches cts _ _ Hq row).
    destruct cts as [|c cs]; [contradiction|]. cbn [Q_bool andb orb]. unfold stale_in. apply existsb_exists. exists ct.
    split; [exact Hin|]. rewrite Hm, matches_model_query, Hempty.
    apply Nat.eqb_eq in Hpk. now rewrite Hpk.
Qed.

(** ** Running the command *)

Section Running.

Variable set_iter : PySet -> list string.

(** The loop that fills [changes] ends when the rows it visits have their
    models. *)
Lemma collect_changes_total (queryset : list Translation) :
  Forall row_has_model_class queryset ->
  forall changes, exists changes',
    collect_changes queryset changes = inr changes'.
Proof.
  induction 1 as [|row rest Hrow _ IH]; intros changes; simpl.
  - now exists changes.
  - destruct (model_class (content_type row)) eqn:E.
    + apply IH.
    + now elim Hrow.
Qed.

(** Telling the user writes to the standard output only, and nothing
    below verbosity 1. *)
Lemma tell_user_runs (verbosity : Z) (queryset : list Translation) :
  ((1 <= verbosity)%Z -> Forall row_has_model_class queryset) ->
  exists report,
    Forall is_report report /\
    ((verbosity < 1)%Z -> report = []) /\
    forall w,
      tell_user set_iter verbosity queryset w
      = (Normal tt, {| store := store w; trace := trace w ++ report |}).
Proof.
  intros Hrows. unfold tell_user.
  destruct (Z.leb_spec 1 verbosity) as [Hv|Hv].
  - destruct (collect_changes_total queryset (Hrows Hv) []) as [changes Hc].
    eexists [_; _]. split; [|split].
    + repeat constructor; eexists; reflexivity.
    + lia.
    + intros w. rewrite Hc. unfold bind, lift, ret, stdout_write, emit.
      cbn [store trace]. now rewrite <- app_assoc.
  - exists []. split; [constructor|]. split; [reflexivity|].
    intros w. unfold ret. rewrite app_nil_r. now destruct w.
Qed.

(** What [handle] does up to the test of the queryset. *)
Lemma handle_fetched (env : Env) (options : Options) (query : Q)
      (table : list Translation) :
  fetch_query env (app_label options) = inr query ->
  handle set_iter env options {| store := table; trace := [] |}
  = match objects_filter query table with
    | _ :: _ =>
        (tell_user set_iter (verbosity options)
                   (objects_filter query table) ;;
         run <- confirm env (interactive options) ;;
         if run_truthy run then
           delete query ;;
           stdout_write SUCCESS "Successfully synchronized translations."
         else
           stdout_write NOTICE "Synchronizing translations cancelled.")
          {| store := table; trace := [EvQuery query] |}
    | [] =>
        stdout_write SUCCESS "No translations to synchronize."
          {| store := table; trace := [EvQuery query] |}
    end.
Proof.
  intros Hq. unfold handle. rewrite Hq.
  unfold bind at 1. unfold lift, ret.
  unfold bind at 1. unfold evaluate. cbn [store trace app].
  destruct (objects_filter query table); reflexivity.
Qed.

Lemma no_input_in_report (report : list Event) (p : string) :
  Forall is_report report -> ~ In (EvInput p) report.
Proof.
  intros Hall Hin. rewrite Forall_forall in Hall.
  destruct (Hall _ Hin) as [msg Hmsg]. discriminate.
Qed.

Lemma no_delete_in_report (report : list Event) (q : Q) :
  Forall is_report report -> ~ In (EvDelete q) report.
Proof.
  intros Hall Hin. rewrite Forall_forall in Hall.
  destruct (Hall _ Hin) as [msg Hmsg]. discriminate.
Qed.

Lemma objects_delete_In (query : Q) (table : list Translation)
      (row : Translation) :
  In row (objects_delete query table)
  <-> In row table /\ ~ In row (objects_filter query table).
Proof.
  unfold objects_delete, objects_filter. rewrite !filter_In.
  destruct (matches query row); simpl; intuition congruence.
Qed.

End Running.

(** C6: with an empty candidate set the command queries, writes that there
    is nothing to synchronize, and does nothing else: no prompt, no
    delete, the table as it was. *)
Theorem C6_nothing_to_synchronize :
  forall (set_iter : PySet -> list string) (env : Env)
         (table : list Translation) (options : Options) (query : Q),
    fetch_query env (app_label options) = inr query ->
    objects_filter query table = [] ->
    run_handle set_iter env table options
    = {| result := Returned None;
         table_after := table;
         events := [ EvQuery query;
                     EvStdout SUCCESS "No translations to synchronize." ] |}.
Proof.
  intros set_iter env table options query Hq Hempty.
  unfold run_handle. rewrite (handle_fetched _ _ _ _ _ Hq), Hempty.
  reflexivity.
Qed.

(** C7: with [--noinput] and a non-empty candidate set the command does not
    prompt, deletes the candidate set in one bulk delete and reports
    success. *)
Theorem C7_noinput_deletes_without_prompt :
  forall (set_iter : PySet -> list string) (env : Env)
         (table : list Translation) (options : Options) (query : Q),
    interactive options = false ->
    fetch_query env (app_label options) = inr query ->
    objects_filter query table <> [] ->
    ((1 <= verbosity options)%Z ->
     Forall row_has_model_class (objects_filter query table)) ->
    exists report,
      Forall is_report report /\
      run_handle set_iter env table options
      = {| result := Returned None;
           table_after := objects_delete query table;
           events := EvQuery query :: report
                     ++ [ EvDelete query;
                          EvStdout SUCCESS
                            "Successfully synchronized translations." ] |}
      /\ (forall p, ~ In (EvInput p)
                      (events (run_handle set_iter env table options)))
      /\ (forall row, In row (objects_delete query table)
                      <-> In row table
                          /\ ~ In row (objects_filter query table)).
Proof.
  intros set_iter env table options query Hni Hq Hne Hrows.
  destruct (tell_user_runs set_iter _ _ Hrows) as (report & Hrep & _ & Htell).
  exists report. split; [exact Hrep|].
  assert (Hrun : run_handle set_iter env table options
      = {| result := Returned None;
           table_after := objects_delete query table;
           events := EvQuery query :: report
                     ++ [ EvDelete query;
                          EvStdout SUCCESS
                            "Successfully synchronized translations." ] |}).
  { unfold run_handle. rewrite (handle_fetched _ _ _ _ _ Hq).
    destruct (objects_filter query table) as [|r rs] eqn:E; [congruence|].
    unfold bind at 1. rewrite Htell. rewrite Hni.
    unfold confirm, bind, ret, delete, stdout_write, emit.
    cbn [run_truthy store trace]. cbn [app]. now rewrite <- app_assoc. }
  split; [exact Hrun|]. split.
  - intros p. rewrite Hrun. cbn [events]. intros [H|H]; [discriminate|].
    apply in_app_or in H. destruct H as [H|H].
    + now apply (no_input_in_report report p).
    + destruct H as [H|[H|[]]]; discriminate.
  - intros row. apply objects_delete_In.
Qed.

(** C9: asked to confirm when the input stream says it is not a terminal,
    the command reads nothing, deletes nothing, writes the message that the
    synchronization is skipped, and returns. *)
Theorem C9_not_a_tty_skips :
  forall (set_iter : PySet -> list string) (env : Env)
         (table : list Translation) (options : Options) (query : Q),
    interactive options = true ->
    stdin_isatty env = Some false ->
    fetch_query env (app_label options) = inr query ->
    objects_filter query table <> [] ->
    ((1 <= verbosity options)%Z ->
     Forall row_has_model_class (objects_filter query table)) ->
    exists report,
      Forall is_report report /\
      run_handle set_iter env table options
      = {| result := Returned None;
           table_after := table;
           events := EvQuery query :: report
                     ++ [ EvStdout PLAIN
                            ("Synchronizing translations skipped due to not running in a TTY. "
                             ++ "You can run `manage.py synctranslations` in your project "
                             ++ "to synchronize translations manually.");
                          EvStdout NOTICE
                            "Synchronizing translations cancelled." ] |}
      /\ (forall p, ~ In (EvInput p)
                      (events (run_handle set_iter env table options)))
      /\ (forall q, ~ In (EvDelete q)
                      (events (run_handle set_iter env table options))).
Proof.
  intros set_iter env table options query Hi Htty Hq Hne Hrows.
  destruct (tell_user_runs set_iter _ _ Hrows) as (report & Hrep & _ & Htell).
  exists report. split; [exact Hrep|].
  match goal with |- ?L = ?R /\ _ => assert (Hrun : L = R) end.
  { unfold run_handle. rewrite (handle_fetched _ _ _ _ _ Hq).
    destruct (objects_filter query table) as [|r rs] eqn:E; [congruence|].
    unfold bind at 1. rewrite Htell. rewrite Hi.
    unfold confirm, not_a_tty. rewrite Htty.
    unfold try_except, bind, raise, ret, stdout_write, emit.
    cbn [negb run_truthy store trace]. cbn [app].
    now rewrite <- !app_assoc. }
  split; [exact Hrun|]. split.
  - intros p. rewrite Hrun. cbn [events]. intros [H|H]; [discriminate|].
    apply in_app_or in H. destruct H as [H|H].
    + now apply (no_input_in_report report p).
    + destruct H as [H|[H|[]]]; discriminate.
  - intros q. rewrite Hrun. cbn [events]. intros [H|H]; [discriminate|].
    apply in_app_or in H. destruct H as [H|H].
    + now apply (no_delete_in_report report q).
    + destruct H as [H|[H|[]]]; discriminate.
Qed.

(** ** The prompt *)

(** Once a line is read at the prompt, [handle] returns from inside the
    loop: the value is the answer, and nothing after the loop runs. *)
Lemma answered_returns :
  forall (set_iter : PySet -> list string) (env : Env)
         (table : list Translation) (options : Options) (query : Q)
         (line : string),
    interactive options = true ->
    not_a_tty env = false ->
    stdin_input env = inr line ->
    fetch_query env (app_label options) = inr query ->
    objects_filter query table <> [] ->
    ((1 <= verbosity options)%Z ->
     Forall row_has_model_class (objects_filter query table)) ->
    exists report,
      Forall is_report report /\
      run_handle set_iter env table options
      = {| result :=
             Returned (if str_in (raw_value line) ["y"; "yes"] then Some true
                       else if str_in (raw_value line) ["n"; "no"]
                            then Some false
                            else None);
           table_after := table;
           events := EvQuery query :: report ++ [EvInput prompt] |}.
Proof.
  intros set_iter env table options query line Hi Htty Hin Hq Hne Hrows.
  destruct (tell_user_runs set_iter _ _ Hrows) as (report & Hrep & _ & Htell).
  exists report. split; [exact Hrep|].
  unfold run_handle. rewrite (handle_fetched _ _ _ _ _ Hq).
  destruct (objects_filter query table) as [|r rs] eqn:E; [congruence|].
  unfold bind at 1. rewrite Htell. rewrite Hi.
  unfold confirm. rewrite Htty.
  unfold try_except, while_run_is_None, ask, input. rewrite Hin.
  unfold bind, lift, ret, return_, emit. cbn [store trace]. cbn [app].
  destruct (str_in (raw_value line) ["y"; "yes"]); [reflexivity|].
  destruct (str_in (raw_value line) ["n"; "no"]); reflexivity.
Qed.

(** C1: in the code, an answer of yes makes [handle] return [True] from
    inside the loop: the table is left as it was and the trace ends with the
    prompt, with no delete and no message of success. *)
Theorem C1_yes_returns_before_the_delete :
  forall (set_iter : PySet -> list string) (env : Env)
         (table : list Translation) (options : Options) (query : Q)
         (line : string),
    interactive options = true ->
    stdin_isatty env = Some true ->
    stdin_input env = inr line ->
    str_in (raw_value line) ["y"; "yes"] = true ->
    fetch_query env (app_label options) = inr query ->
    objects_filter query table <> [] ->
    ((1 <= verbosity options)%Z ->
     Forall row_has_model_class (objects_filter query table)) ->
    exists report,
      Forall is_report report /\
      run_handle set_iter env table options
      = {| result := Returned (Some true);
           table_after := table;
           events := EvQuery query :: report ++ [EvInput prompt] |}.
Proof.
  intros set_iter env table options query line Hi Htty Hin Hyes Hq Hne Hrows.
  assert (Hnt : not_a_tty env = false) by (unfold not_a_tty; now rewrite Htty).
  destruct (answered_returns set_iter env table options query line
              Hi Hnt Hin Hq Hne Hrows) as (report & Hrep & Hrun).
  exists report. split; [exact Hrep|]. now rewrite Hrun, Hyes.
Qed.

(** C3: in the code, an answer other than yes makes [handle] return from
    inside the loop ([False] for no, [None] otherwise): the table is left as
    it was, and the trace ends with the prompt, with no message that the
    synchronization is cancelled. *)
Theorem C3_no_returns_before_the_message :
  forall (set_iter : PySet -> list string) (env : Env)
         (table : list Translation) (options : Options) (query : Q)
         (line : string),
    interactive options = true ->
    stdin_isatty env = Some true ->
    stdin_input env = inr line ->
    str_in (raw_value line) ["y"; "yes"] = false ->
    fetch_query env (app_label options) = inr query ->
    objects_filter query table <> [] ->
    ((1 <= verbosity options)%Z ->
     Forall row_has_model_class (objects_filter query table)) ->
    exists report,
      Forall is_report report /\
      run_handle set_iter env table options
      = {| result := Returned (if str_in (raw_value line) ["n"; "no"]
                               then Some false else None);
           table_after := table;
           events := EvQuery query :: report ++ [EvInput prompt] |}
      /\ ~ In (EvStdout NOTICE "Synchronizing translations cancelled.")
              (events (run_handle set_iter env table options)).
Proof.
  intros set_iter env table options query line Hi Htty Hin Hno Hq Hne Hrows.
  assert (Hnt : not_a_tty env = false) by (unfold not_a_tty; now rewrite Htty).
  destruct (answered_returns set_iter env table options query line
              Hi Hnt Hin Hq Hne Hrows) as (report & Hrep & Hrun).
  rewrite Hno in Hrun.
  exists report. split; [exact Hrep|]. split; [exact Hrun|].
  rewrite Hrun. cbn [events]. intros [H|H]; [discriminate|].
  apply in_app_or in H. destruct H as [H|[H|[]]]; [|discriminate].
  rewrite Forall_forall in Hrep. destruct (Hrep _ H) as [msg Hmsg].
  discriminate.
Qed.

(** C8: an empty line at the prompt and the line ["y"] give the same run:
    the same result, the same table, the same trace. *)
Theorem C8_empty_line_is_yes :
  forall (set_iter : PySet -> list string) (env : Env)
         (table : list Translation) (options : Options),
    run_handle set_iter (with_input env (inr "")) table options
    = run_handle set_iter (with_input env (inr "y")) table options.
Proof.
  intros set_iter env table options.
  unfold run_handle. reflexivity.
Qed.

(** C5: a label that is not empty and is the label of no registered
    application makes the command raise [CommandError] with the message
    naming the label, before it queries or deletes anything; the empty label
    gives the run that no label gives. *)
Theorem C5_unknown_app_label_aborts :
  forall (set_iter : PySet -> list string) (env : Env)
         (table : list Translation) (options : Options),
    (forall l : string,
        app_label options = Some l ->
        l <> "" ->
        (forall app_config, In app_config (get_app_configs env) ->
                            label app_config <> l) ->
        run_handle set_iter env table options
        = {| result :=
               Raised (CommandError ("App '" ++ l ++ "' is not found."));
             table_after := table;
             events := [] |})
    /\ (app_label options = Some "" ->
        run_handle set_iter env table options
        = run_handle set_iter env table (with_app_label options None)).
Proof.
  intros set_iter env table options. split.
  - intros l Hl Hne Hunknown.
    unfold run_handle, handle, fetch_query, get_content_types.
    rewrite Hl. unfold app_label_given, app_label_str.
    apply String.eqb_neq in Hne. rewrite Hne. cbn [negb].
    assert (Hex : existsb (fun app_config => String.eqb (label app_config) l)
                          (get_app_configs env) = false).
    { apply not_true_iff_false. intros H. apply existsb_exists in H.
      destruct H as (a & Ha & E). apply String.eqb_eq in E.
      now apply (Hunknown a Ha). }
    rewrite Hex. reflexivity.
  - intros Hl. unfold run_handle, handle, fetch_query, get_content_types.
    rewrite Hl. reflexivity.
Qed.

(** ** The report *)

Section Report.

Lemma set_add_In (s : PySet) (x y : string) :
  In y (set_add s x) <-> In y s \/ y = x.
Proof.
  unfold set_add, str_in. destruct (existsb (String.eqb x) s) eqn:E.
  - apply str_in_In in E. split; [tauto|]. intros [H|H]; [exact H|now subst].
  - rewrite in_app_iff. simpl. intuition.
Qed.

Lemma set_add_NoDup (s : PySet) (x : string) :
  NoDup s -> NoDup (set_add s x).
Proof.
  intros Hs. unfold set_add, str_in.
  destruct (existsb (String.eqb x) s) eqn:E; [exact Hs|].
  apply NoDup_app; [exact Hs | repeat constructor; intros [] |].
  intros a Ha [Hax|[]]. subst a.
  apply str_in_In in Ha. congruence.
Qed.

Lemma distinct_snoc (l : list string) (x : string) :
  distinct (l ++ [x]) = set_add (distinct l) x.
Proof. unfold distinct. now rewrite fold_left_app. Qed.

Lemma distinct_In (l : list string) (x : string) :
  In x (distinct l) <-> In x l.
Proof.
  induction l as [|y l IH] using rev_ind.
  - reflexivity.
  - rewrite distinct_snoc, set_add_In, in_app_iff, IH. simpl. intuition.
Qed.

Lemma distinct_NoDup (l : list string) : NoDup (distinct l).
Proof.
  induction l as [|y l IH] using rev_ind.
  - constructor.
  - rewrite distinct_snoc. now apply set_add_NoDup.
Qed.

(** [setdefault] and [add] on a dictionary that is the graph of a function
    over its keys. *)
Lemma setdefault_graph (G : string -> PySet) (keys : list string)
      (k : string) :
  G k = [] \/ In k keys ->
  dict_setdefault (map (fun m => (m, G m)) keys) k []
  = map (fun m => (m, G m)) (set_add keys k).
Proof.
  intros HG. unfold set_add, str_in.
  induction keys as [|m keys IH]; simpl.
  - destruct HG as [HG|[]]. now rewrite HG.
  - rewrite (String.eqb_sym k m).
    destruct (String.eqb_spec m k) as [->|Hmk]; simpl; [reflexivity|].
    assert (HG' : G k = [] \/ In k keys).
    { destruct HG as [HG|[HG|HG]]; [now left | congruence | now right]. }
    rewrite (IH HG').
    destruct (existsb (String.eqb k) keys); reflexivity.
Qed.

Lemma add_graph (G : string -> PySet) (keys : list string)
      (k x : string) :
  NoDup keys ->
  dict_add (map (fun m => (m, G m)) keys) k x
  = map (fun m => (m, if String.eqb k m then set_add (G m) x else G m))
        keys.
Proof.
  induction 1 as [|m keys Hm Hkeys IH]; simpl; [reflexivity|].
  rewrite (String.eqb_sym k m).
  destruct (String.eqb_spec m k) as [->|Hmk].
  - f_equal. apply map_ext_in. intros m' Hm'.
    destruct (String.eqb_spec k m') as [->|_]; [contradiction|reflexivity].
  - now rewrite IH.
Qed.

Lemma model_names_snoc (queryset : list Translation) (row : Translation) :
  model_names (queryset ++ [row])
  = set_add (model_names queryset) (model_name_of row).
Proof. unfold model_names. rewrite map_app. simpl. now rewrite distinct_snoc. Qed.

Lemma fields_of_snoc (name : string) (queryset : list Translation)
      (row : Translation) :
  fields_of name (queryset ++ [row])
  = if String.eqb (model_name_of row) name
    then set_add (fields_of name queryset) (field row)
    else fields_of name queryset.
Proof.
  unfold fields_of. rewrite filter_app. simpl.
  destruct (String.eqb (model_name_of row) name).
  - rewrite map_app. simpl. now rewrite distinct_snoc.
  - now rewrite app_nil_r.
Qed.

Lemma model_names_In (queryset : list Translation) (name : string) :
  In name (model_names queryset)
  <-> exists row, In row queryset /\ model_name_of row = name.
Proof.
  unfold model_names. rewrite distinct_In, in_map_iff.
  split; intros (row & H1 & H2); exists row; tauto.
Qed.

Lemma fields_of_In (queryset : list Translation) (name x : string) :
  In x (fields_of name queryset)
  <-> exists row, In row queryset /\ model_name_of row = name
                  /\ field row = x.
Proof.
  unfold fields_of. rewrite distinct_In, in_map_iff. split.
  - intros (row & Hf & Hin). apply filter_In in Hin.
    destruct Hin as [Hin E]. apply String.eqb_eq in E. now exists row.
  - intros (row & Hin & Hn & Hf). exists row. split; [exact Hf|].
    apply filter_In. split; [exact Hin|]. now apply String.eqb_eq.
Qed.

(** One more row in the grouping is one [setdefault] and one [add]. *)
Lemma grouped_snoc (queryset : list Translation) (row : Translation) :
  grouped (queryset ++ [row])
  = dict_add (dict_setdefault (grouped queryset) (model_name_of row) [])
             (model_name_of row) (field row).
Proof.
  unfold grouped.
  rewrite setdefault_graph.
  - rewrite add_graph
      by (rewrite <- model_names_snoc; apply distinct_NoDup).
    rewrite model_names_snoc. apply map_ext. intros name.
    now rewrite fields_of_snoc.
  - destruct (fields_of (model_name_of row) queryset) as [|x xs] eqn:E;
      [now left|right].
    apply model_names_In.
    assert (Hx : In x (fields_of (model_name_of row) queryset))
      by (rewrite E; apply in_eq).
    apply fields_of_In in Hx. destruct Hx as (r & Hr & Hn & _).
    now exists r.
Qed.

Lemma collect_changes_snoc (queryset : list Translation)
      (row : Translation) :
  forall changes,
    collect_changes (queryset ++ [row]) changes
    = match collect_changes queryset changes with
      | inl e => inl e
      | inr changes' => collect_changes [row] changes'
      end.
Proof.
  induction queryset as [|r rest IH]; intros changes; simpl.
  - reflexivity.
  - destruct (model_class (content_type r)); [apply IH|reflexivity].
Qed.

(** The loop of the command computes the grouping. *)
Lemma collect_changes_grouped (queryset : list Translation) :
  Forall row_has_model_class queryset ->
  collect_changes queryset [] = inr (grouped queryset).
Proof.
  induction queryset as [|row rest IH] using rev_ind; intros Hall.
  - reflexivity.
  - apply Forall_app in Hall. destruct Hall as [Hrest Hrow].
    rewrite collect_changes_snoc, (IH Hrest), grouped_snoc.
    inversion Hrow as [|? ? Hr _]; subst. simpl.
    unfold model_name_of.
    destruct (model_class (content_type row)) eqn:E;
      [reflexivity|now elim Hr].
Qed.

Lemma change_list_grouped (set_iter : PySet -> list string)
      (queryset : list Translation) :
  change_list set_iter (grouped queryset)
  = map (report_line set_iter queryset) (model_names queryset).
Proof.
  unfold change_list, grouped. rewrite map_map. reflexivity.
Qed.

End Report.

(** C4: at verbosity 1 and above the report is the header and one line per
    model name among the candidate rows, names in order of first appearance;
    the line of a name lists each field name of the rows of that name once,
    in the order the set is iterated, with [fields] in the plural exactly
    when there is more than one; below verbosity 1 nothing is written. *)
Theorem C4_report_has_a_line_per_model_name :
  forall (set_iter : PySet -> list string) (verbosity : Z)
         (queryset : list Translation),
    set_order_ok set_iter ->
    Forall row_has_model_class queryset ->
    ((1 <= verbosity)%Z ->
     forall w,
       tell_user set_iter verbosity queryset w
       = (Normal tt,
          {| store := store w;
             trace := trace w
               ++ [ EvStdout PLAIN
                      "The translations for the following will be deleted:";
                    EvStdout PLAIN
                      (String.concat nl
                         (map (report_line set_iter queryset)
                              (model_names queryset))) ] |}))
    /\ ((verbosity < 1)%Z ->
        forall w, tell_user set_iter verbosity queryset w = (Normal tt, w))
    /\ NoDup (model_names queryset)
    /\ (forall name,
           In name (model_names queryset)
           <-> exists row, In row queryset /\ model_name_of row = name)
    /\ (forall name,
           let shown := set_iter (fields_of name queryset) in
           report_line set_iter queryset name
           = ("- '" ++ String.concat ", " shown ++ "' field"
                   ++ (if Nat.ltb 1 (List.length shown) then "s" else "")
                   ++ " in '" ++ name ++ "' model")%string
           /\ NoDup shown
           /\ (forall x,
                  In x shown
                  <-> exists row, In row queryset
                                  /\ model_name_of row = name
                                  /\ field row = x)).
Proof.
  intros set_iter verbosity queryset Hset Hrows.
  split; [|split; [|split; [|split]]].
  - intros Hv w. unfold tell_user.
    destruct (Z.leb_spec 1 verbosity) as [_|Hlt]; [|lia].
    rewrite (collect_changes_grouped queryset Hrows).
    unfold bind, lift, ret, stdout_write, emit. cbn [store trace].
    now rewrite change_list_grouped, <- app_assoc.
  - intros Hv w. unfold tell_user.
    destruct (Z.leb_spec 1 verbosity) as [Hle|_]; [lia|reflexivity].
  - apply distinct_NoDup.
  - apply model_names_In.
  - intros name shown.
    pose proof (Hset (fields_of name queryset)) as Hperm. fold shown in Hperm.
    split; [|split].
    + unfold report_line, change_line. fold shown.
      now rewrite (Permutation_length Hperm).
    + apply (Permutation_NoDup (Permutation_sym Hperm)), distinct_NoDup.
    + intros x. rewrite <- fields_of_In. split; intros H.
      * exact (Permutation_in x Hperm H).
      * exact (Permutation_in x (Permutation_sym Hperm) H).
Qed.

(** ** The properties on the example project *)

Lemma example_pk_unique :
  pk_unique (ContentType_objects (example_env true (inr ""))).
Proof.
  intros a b [<-|[<-|[]]] [<-|[<-|[]]] H; try reflexivity; discriminate H.
Defined.

Lemma example_has_model_classes :
  Forall has_model_class [article_type; legacy_type].
Proof.
  repeat constructor; unfold has_model_class; simpl; discriminate.
Defined.

Lemma example_stale_has_model_classes :
  Forall row_has_model_class example_stale.
Proof.
  repeat constructor; unfold row_has_model_class, has_model_class; simpl;
    discriminate.
Defined.

Lemma reverse_order_ok : set_order_ok reverse_order.
Proof.
  intros s. unfold reverse_order. symmetry. apply Permutation_rev.
Defined.

Lemma C1_witness :
  exists report,
    Forall is_report report /\
    run_handle insertion_order (example_env true (inr "y")) example_table
               (options_of 1 true None)
    = {| result := Returned (Some true);
         table_after := example_table;
         events := EvQuery example_query :: report ++ [EvInput prompt] |}.
Proof.
  apply (C1_yes_returns_before_the_delete
           insertion_order (example_env true (inr "y")) example_table
           (options_of 1 true None) example_query "y").
  - reflexivity.
  - reflexivity.
  - reflexivity.
  - reflexivity.
  - reflexivity.
  - discriminate.
  - intros _. exact example_stale_has_model_classes.
Defined.

Lemma X18_witness :
  exists query,
    fetch_query (example_env true (inr "")) None = inr query /\
    forall ct model row,
      In ct [article_type; legacy_type] -> model_class ct = Some model ->
      ct_pk (content_type row) = ct_pk ct ->
      match translatable_fields model with
      | Some F =>
          (In row (objects_filter query example_table)
           <-> In row example_table /\ ~ In (field row) F)
          /\ (F <> [] -> In (field row) F ->
              ~ In row (objects_filter query example_table))
      | None =>
          In row (objects_filter query example_table) <-> In row example_table
      end.
Proof.
  apply (X18_candidates_in_scope_are_the_stale_rows
           (example_env true (inr "")) None [article_type; legacy_type]
           example_table).
  - exact example_pk_unique.
  - reflexivity.
  - exact example_has_model_classes.
Defined.

Lemma C2_witness :
  fetch_query tools_env (Some "tools") = inr Q_empty
  /\ In (row_of article_type "title")
        (objects_filter Q_empty example_table).
Proof.
  apply (C2_empty_scope_selects_declared_fields
           tools_env (Some "tools") example_table
           (row_of article_type "title") Article ["title"; "body"]).
  - reflexivity.
  - simpl. auto.
  - reflexivity.
  - reflexivity.
  - discriminate.
  - simpl. auto.
Defined.

Lemma C3_witness :
  exists report,
    Forall is_report report /\
    run_handle insertion_order (example_env true (inr "n")) example_table
               (options_of 1 true None)
    = {| result := Returned (Some false);
         table_after := example_table;
         events := EvQuery example_query :: report ++ [EvInput prompt] |}
    /\ ~ In (EvStdout NOTICE "Synchronizing translations cancelled.")
            (events (run_handle insertion_order
                       (example_env true (inr "n")) example_table
                       (options_of 1 true None))).
Proof.
  apply (C3_no_returns_before_the_message
           insertion_order (example_env true (inr "n")) example_table
           (options_of 1 true None) example_query "n").
  - reflexivity.
  - reflexivity.
  - reflexivity.
  - reflexivity.
  - reflexivity.
  - discriminate.
  - intros _. exact example_stale_has_model_classes.
Defined.

Lemma C4_witness :
  tell_user reverse_order 1 example_stale
            {| store := example_table; trace := [EvQuery example_query] |}
  = (Normal tt,
     {| store := example_table;
        trace := [EvQuery example_query]
          ++ [ EvStdout PLAIN
                 "The translations for the following will be deleted:";
               EvStdout PLAIN
                 (String.concat nl
                    [ "- 'subtitle' field in 'Article' model";
                      "- 'caption, title' fields in 'LegacyPage' model" ])
             ] |}).
Proof.
  apply (proj1 (C4_report_has_a_line_per_model_name
                  reverse_order 1 example_stale
                  reverse_order_ok example_stale_has_model_classes)).
  lia.
Defined.

(** C4, as it was claimed, fails twice.  Two record types whose classes
    have the same name get one line between them; and the field names of a
    line come in the order the set is iterated, which need not be the order
    of first appearance. *)
Lemma C4_one_line_for_two_types_and_set_order :
  (ct_pk blog_comment_type <> ct_pk forum_comment_type
   /\ tell_user insertion_order 1 comments_table {| store := []; trace := [] |}
      = (Normal tt,
         {| store := [];
            trace := [ EvStdout PLAIN
                         "The translations for the following will be deleted:";
                       EvStdout PLAIN
                         "- 'text, body' fields in 'Comment' model" ] |})
   /\ spec_change_list comments_table
      = [ "- 'text' field in 'Comment' model";
          "- 'body' field in 'Comment' model" ])
  /\ (set_order_ok reverse_order
      /\ tell_user reverse_order 1
                   [row_of legacy_type "title"; row_of legacy_type "caption"]
                   {| store := []; trace := [] |}
         = (Normal tt,
            {| store := [];
               trace := [ EvStdout PLAIN
                            "The translations for the following will be deleted:";
                          EvStdout PLAIN
                            "- 'caption, title' fields in 'LegacyPage' model"
                        ] |})
      /\ spec_change_list
           [row_of legacy_type "title"; row_of legacy_type "caption"]
         = [ "- 'title, caption' fields in 'LegacyPage' model" ]).
Proof.
  split.
  - split; [discriminate|]. split; reflexivity.
  - split; [exact reverse_order_ok|]. split; reflexivity.
Qed.

Lemma C5_witness :
  run_handle insertion_order (example_env true (inr "")) example_table
             (options_of 1 true (Some "shop"))
  = {| result := Raised (CommandError "App 'shop' is not found.");
       table_after := example_table;
       events := [] |}.
Proof.
  apply (proj1 (C5_unknown_app_label_aborts
                  insertion_order (example_env true (inr "")) example_table
                  (options_of 1 true (Some "shop")))
               "shop").
  - reflexivity.
  - discriminate.
  - intros app_config [<-|[<-|[]]]; discriminate.
Defined.

(** C5, as it was claimed, fails for the empty label: no application has
    it, and the command takes it for no label at all and synchronizes every
    application. *)
Lemma C5_empty_label_is_no_label :
  (forall app_config,
      In app_config (get_app_configs (example_env true (inr ""))) ->
      label app_config <> "")
  /\ run_handle insertion_order (example_env true (inr "")) example_table
                (options_of 0 false (Some ""))
     = {| result := Returned None;
          table_after := [row_of article_type "title";
                          row_of article_type "body"];
          events := [ EvQuery example_query;
                      EvDelete example_query;
                      EvStdout SUCCESS
                        "Successfully synchronized translations." ] |}
  /\ result (run_handle insertion_order (example_env true (inr ""))
                        example_table (options_of 0 false (Some "")))
     <> Raised (CommandError "App '' is not found.")
  /\ table_after (run_handle insertion_order (example_env true (inr ""))
                             example_table (options_of 0 false (Some "")))
     <> example_table.
Proof.
  split; [|split; [|split]].
  - intros app_config [<-|[<-|[]]]; discriminate.
  - reflexivity.
  - discriminate.
  - discriminate.
Qed.

Lemma C6_witness :
  run_handle insertion_order (example_env true (inr ""))
             [row_of article_type "title"] (options_of 1 true None)
  = {| result := Returned None;
       table_after := [row_of article_type "title"];
       events := [ EvQuery example_query;
                   EvStdout SUCCESS "No translations to synchronize." ] |}.
Proof.
  apply (C6_nothing_to_synchronize
           insertion_order (example_env true (inr ""))
           [row_of article_type "title"] (options_of 1 true None)
           example_query).
  - reflexivity.
  - reflexivity.
Defined.

Lemma C7_witness :
  exists report,
    Forall is_report report /\
    run_handle insertion_order (example_env true (inr "")) example_table
               (options_of 1 false None)
    = {| result := Returned None;
         table_after := objects_delete example_query example_table;
         events := EvQuery example_query :: report
                   ++ [ EvDelete example_query;
                        EvStdout SUCCESS
                          "Successfully synchronized translations." ] |}
    /\ (forall p, ~ In (EvInput p)
                    (events (run_handle insertion_order
                               (example_env true (inr "")) example_table
                               (options_of 1 false None))))
    /\ (forall row, In row (objects_delete example_query example_table)
                    <-> In row example_table
                        /\ ~ In row (objects_filter example_query
                                                    example_table)).
Proof.
  apply (C7_noinput_deletes_without_prompt
           insertion_order (example_env true (inr "")) example_table
           (options_of 1 false None) example_query).
  - reflexivity.
  - reflexivity.
  - discriminate.
  - intros _. exact example_stale_has_model_classes.
Defined.

(** C7, as it was claimed, fails when a candidate row has lost its model:
    at verbosity 1 the loop of the report raises before the delete. *)
Lemma C7_report_raises_before_the_delete :
  interactive (options_of 1 false (Some "tools")) = false
  /\ fetch_query tools_env (Some "tools") = inr Q_empty
  /\ objects_filter Q_empty [row_of gone_type "title"]
     = [row_of gone_type "title"]
  /\ run_handle insertion_order tools_env [row_of gone_type "title"]
                (options_of 1 false (Some "tools"))
     = {| result := Raised AttributeError;
          table_after := [row_of gone_type "title"];
          events := [EvQuery Q_empty] |}.
Proof.
  repeat split.
Qed.

(** C9, as it was claimed, fails when a candidate row has lost its model:
    at verbosity 1 the loop of the report raises before the input stream is
    looked at, so that no message of a skip is written and the command does
    not return. *)
Lemma C9_report_raises_before_the_skip :
  interactive (options_of 1 true (Some "tools")) = true
  /\ stdin_isatty (with_isatty tools_env (Some false)) = Some false
  /\ fetch_query (with_isatty tools_env (Some false)) (Some "tools")
     = inr Q_empty
  /\ objects_filter Q_empty [row_of gone_type "title"]
     = [row_of gone_type "title"]
  /\ run_handle insertion_order (with_isatty tools_env (Some false))
                [row_of gone_type "title"]
                (options_of 1 true (Some "tools"))
     = {| result := Raised AttributeError;
          table_after := [row_of gone_type "title"];
          events := [EvQuery Q_empty] |}.
Proof.
  repeat split.
Qed.

Lemma C9_witness :
  exists report,
    Forall is_report report /\
    run_handle insertion_order (example_env false (inr "")) example_table
               (options_of 1 true None)
    = {| result := Returned None;
         table_after := example_table;
         events := EvQuery example_query :: report
                   ++ [ EvStdout PLAIN
                          ("Synchronizing translations skipped due to not running in a TTY. "
                           ++ "You can run `manage.py synctranslations` in your project "
                           ++ "to synchronize translations manually.");
                        EvStdout NOTICE
                          "Synchronizing translations cancelled." ] |}
    /\ (forall p, ~ In (EvInput p)
                    (events (run_handle insertion_order
                               (example_env false (inr "")) example_table
                               (options_of 1 true None))))
    /\ (forall q, ~ In (EvDelete q)
                    (events (run_handle insertion_order
                               (example_env false (inr "")) example_table
                               (options_of 1 true None)))).
Proof.
  apply (C9_not_a_tty_skips
           insertion_order (example_env false (inr "")) example_table
           (options_of 1 true None) example_query).
  - reflexivity.
  - reflexivity.
  - reflexivity.
  - discriminate.
  - intros _. exact example_stale_has_model_classes.
Defined.

Lemma C10_witness :
  (forall row,
      matches (model_query bare_type Bare) row
      = matches (model_query bare_type
                   {| __name__ := __name__ Bare;
                      translatable_fields := None |}) row)
  /\ (forall cts query table row,
         In bare_type cts -> model_class bare_type = Some Bare ->
         build_query cts Q_empty = inr query ->
         In row table -> ct_pk (content_type row) = ct_pk bare_type ->
         In row (objects_filter query table)).
Proof.
  apply (C10_empty_field_list_selects_every_row bare_type Bare).
  reflexivity.
Defined.

(** * More of the command *)

(** ** Every run, by cases *)

Lemma tell_user_report (set_iter : PySet -> list string) (verbosity : Z)
      (queryset : list Translation) (w : World) :
  tell_user set_iter verbosity queryset w
  = match report_of set_iter verbosity queryset with
    | inl e => (Raise e, w)
    | inr report =>
        (Normal tt, {| store := store w; trace := trace w ++ report |})
    end.
Proof.
  unfold tell_user, report_of.
  destruct (1 <=? verbosity)%Z.
  - destruct (collect_changes queryset []) as [e|changes].
    + reflexivity.
    + unfold bind, lift, ret, stdout_write, emit. cbn [store trace].
      now rewrite <- app_assoc.
  - unfold ret. rewrite app_nil_r. now destruct w.
Qed.

Lemma report_of_is_report (set_iter : PySet -> list string) (verbosity : Z)
      (queryset : list Translation) (report : list Event) :
  report_of set_iter verbosity queryset = inr report ->
  Forall is_report report.
Proof.
  unfold report_of. destruct (1 <=? verbosity)%Z.
  - destruct (collect_changes queryset []); [discriminate|].
    intros H; inversion H; subst.
    repeat constructor; eexists; reflexivity.
  - intros H; inversion H; subst. constructor.
Qed.

(** What [handle] does, in each of the ways it can go. *)
Lemma run_handle_cases (set_iter : PySet -> list string) (env : Env)
      (table : list Translation) (options : Options) :
  run_handle set_iter env table options
  = match fetch_query env (app_label options) with
    | inl e => {| result := Raised e; table_after := table; events := [] |}
    | inr query =>
      match objects_filter query table with
      | [] =>
          {| result := Returned None; table_after := table;
             events := [ EvQuery query;
                         EvStdout SUCCESS "No translations to synchronize." ] |}
      | _ :: _ =>
        match report_of set_iter (verbosity options)
                        (objects_filter query table) with
        | inl e =>
            {| result := Raised e; table_after := table;
               events := [EvQuery query] |}
        | inr report =>
          if interactive options then
            if not_a_tty env then
              {| result := Returned None; table_after := table;
                 events := EvQuery query :: report
                   ++ [ EvStdout PLAIN tty_skip_message;
                        EvStdout NOTICE
                          "Synchronizing translations cancelled." ] |}
            else
              match stdin_input env with
              | inr line =>
                  {| result := Returned (answer_of line);
                     table_after := table;
                     events := EvQuery query :: report ++ [EvInput prompt] |}
              | inl KeyboardInterrupt =>
                  {| result := Raised (SystemExit 1); table_after := table;
                     events := EvQuery query :: report
                       ++ [ EvInput prompt;
                            EvStderr (nl ++ "Operation cancelled.") ] |}
              | inl (NotRunningInTTYException _) =>
                  {| result := Returned None; table_after := table;
                     events := EvQuery query :: report
                       ++ [ EvInput prompt;
                            EvStdout PLAIN tty_skip_message;
                            EvStdout NOTICE
                              "Synchronizing translations cancelled." ] |}
              | inl e =>
                  {| result := Raised e; table_after := table;
                     events := EvQuery query :: report ++ [EvInput prompt] |}
              end
          else
            {| result := Returned None;
               table_after := objects_delete query table;
               events := EvQuery query :: report
                 ++ [ EvDelete query;
                      EvStdout SUCCESS
                        "Successfully synchronized translations." ] |}
        end
      end
    end.
Proof.
  destruct (fetch_query env (app_label options)) as [e|query] eqn:Hq.
  - unfold run_handle, handle. now rewrite Hq.
  - unfold run_handle. rewrite (handle_fetched _ _ _ _ _ Hq).
    destruct (objects_filter query table) as [|r rs] eqn:E; [reflexivity|].
    unfold bind at 1. rewrite tell_user_report.
    destruct (report_of set_iter (verbosity options) (r :: rs))
      as [e|report]; [reflexivity|].
    destruct (interactive options).
    + unfold confirm. destruct (not_a_tty env).
      * unfold try_except, bind, raise, ret, stdout_write, emit.
        cbn [run_truthy store trace]. cbn [app].
        now rewrite <- !app_assoc.
      * unfold try_except, while_run_is_None, ask, input.
        destruct (stdin_input env) as [e|line];
          [destruct e|];
          unfold bind, lift, raise, ret, return_, stdout_write,
                 stderr_write, emit;
          cbn [run_truthy store trace]; cbn [app];
          rewrite <- ?app_assoc; try reflexivity.
        unfold answer_of.
        destruct (str_in (raw_value line) ["y"; "yes"]); [reflexivity|].
        destruct (str_in (raw_value line) ["n"; "no"]); reflexivity.
    + unfold confirm, bind, ret, delete, stdout_write, emit.
      cbn [run_truthy store trace]. cbn [app]. now rewrite <- app_assoc.
Qed.

(** ** What a run never does *)

(** An event that is not a line of the report is not in the report. *)
Ltac not_in_trace Hrep :=
  let H := fresh "H" in
  cbn [events]; intros [H|H]; [discriminate|];
  apply in_app_or in H; destruct H as [H|H];
  [ destruct (proj1 (Forall_forall _ _) Hrep _ H) as [? ?]; discriminate
  | simpl in H; intuition discriminate ].

Lemma objects_filter_delete (query : Q) (table : list Translation) :
  objects_filter query (objects_delete query table) = [].
Proof.
  unfold objects_filter, objects_delete.
  induction table as [|row rest IH]; simpl; [reflexivity|].
  destruct (matches query row) eqn:E; simpl; [exact IH|].
  now rewrite E.
Qed.

Lemma objects_delete_nothing (query : Q) (table : list Translation) :
  objects_filter query table = [] -> objects_delete query table = table.
Proof.
  unfold objects_filter, objects_delete.
  induction table as [|row rest IH]; simpl; [reflexivity|].
  destruct (matches query row); simpl; [discriminate|].
  intros H. now rewrite IH.
Qed.

Lemma report_of_total (set_iter : PySet -> list string) (verbosity : Z)
      (queryset : list Translation) :
  ((1 <= verbosity)%Z -> Forall row_has_model_class queryset) ->
  exists report, report_of set_iter verbosity queryset = inr report.
Proof.
  intros Hrows. unfold report_of.
  destruct (Z.leb_spec 1 verbosity) as [Hv|Hv]; [|now eexists].
  destruct (collect_changes_total queryset (Hrows Hv) []) as [changes Hc].
  rewrite Hc. now eexists.
Qed.

(** X1: asked to confirm, the command deletes nothing, whatever the terminal
    and the answer are. *)
Theorem X1_interactive_run_never_deletes :
  forall (set_iter : PySet -> list string) (env : Env)
         (table : list Translation) (options : Options),
    interactive options = true ->
    table_after (run_handle set_iter env table options) = table
    /\ forall q, ~ In (EvDelete q)
                   (events (run_handle set_iter env table options)).
Proof.
  intros set_iter env table options Hi. rewrite run_handle_cases, Hi.
  destruct (fetch_query env (app_label options)) as [e|query];
    [split; [reflexivity|intros q []]|].
  destruct (objects_filter query table) as [|r rs];
    [split; [reflexivity|intros q H; simpl in H; intuition discriminate]|].
  destruct (report_of set_iter (verbosity options) (r :: rs))
    as [e|report] eqn:R;
    [split; [reflexivity|intros q H; simpl in H; intuition discriminate]|].
  pose proof (report_of_is_report _ _ _ _ R) as Hrep.
  destruct (not_a_tty env);
    [|destruct (stdin_input env) as [[]|line]];
    (split; [reflexivity|intros q; not_in_trace Hrep]).
Qed.

(** X2: a run creates no row, and a row it removes is one the query selects,
    in a run that was not asked to confirm. *)
Theorem X2_removed_rows_are_selected_rows :
  forall (set_iter : PySet -> list string) (env : Env)
         (table : list Translation) (options : Options) (row : Translation),
    (In row (table_after (run_handle set_iter env table options)) ->
     In row table)
    /\ (In row table ->
        ~ In row (table_after (run_handle set_iter env table options)) ->
        interactive options = false
        /\ exists query,
             fetch_query env (app_label options) = inr query
             /\ matches query row = true).
Proof.
  intros set_iter env table options row. rewrite run_handle_cases.
  destruct (fetch_query env (app_label options)) as [e|query];
    [cbn [table_after]; tauto|].
  destruct (objects_filter query table) as [|r rs];
    [cbn [table_after]; tauto|].
  destruct (report_of set_iter (verbosity options) (r :: rs))
    as [e|report]; [cbn [table_after]; tauto|].
  destruct (interactive options).
  - destruct (not_a_tty env);
      [|destruct (stdin_input env) as [[]|line]];
      cbn [table_after]; tauto.
  - cbn [table_after]. unfold objects_delete. rewrite filter_In. split.
    + tauto.
    + intros Hin Hout. split; [reflexivity|]. exists query.
      split; [reflexivity|].
      destruct (matches query row); [reflexivity|].
      exfalso. apply Hout. now split.
Qed.

(** A row the query does not select is in the table after the run. *)
Lemma unselected_row_survives (set_iter : PySet -> list string) (env : Env)
      (table : list Translation) (options : Options) (row : Translation) :
  (forall query, fetch_query env (app_label options) = inr query ->
                 matches query row = false) ->
  In row table ->
  In row (table_after (run_handle set_iter env table options)).
Proof.
  intros Hsel Hin. rewrite run_handle_cases.
  destruct (fetch_query env (app_label options)) as [e|query];
    [exact Hin|].
  specialize (Hsel query eq_refl).
  destruct (objects_filter query table) as [|r rs]; [exact Hin|].
  destruct (report_of set_iter (verbosity options) (r :: rs))
    as [e|report]; [exact Hin|].
  destruct (interactive options).
  - destruct (not_a_tty env);
      [|destruct (stdin_input env) as [[]|line]]; exact Hin.
  - cbn [table_after]. unfold objects_delete. apply filter_In.
    split; [exact Hin|]. now rewrite Hsel.
Qed.

Lemma fetch_query_scope (env : Env) (app_label : option string) (query : Q) :
  fetch_query env app_label = inr query ->
  exists cts, get_content_types env app_label = inr cts
              /\ build_query cts Q_empty = inr query.
Proof.
  unfold fetch_query.
  destruct (get_content_types env app_label) as [e|cts]; [discriminate|].
  intros H. now exists cts.
Qed.

(** The scope of a label that is given: the content types of the table that
    carry the label. *)
Lemma get_content_types_label (env : Env) (l : string)
      (cts : list ContentType) :
  l <> "" ->
  get_content_types env (Some l) = inr cts ->
  forall ct, In ct cts
             <-> In ct (ContentType_objects env) /\ ct_app_label ct = l.
Proof.
  intros Hl. unfold get_content_types, app_label_given, app_label_str.
  apply String.eqb_neq in Hl. rewrite Hl. cbn [negb].
  destruct (existsb _ _); [|discriminate].
  intros H; inversion H; subst. intros ct.
  rewrite filter_In. now rewrite String.eqb_eq.
Qed.

(** X3: a translation of a field that its model declares translatable is in
    the table after every run whose scope holds the model's content type. *)
Theorem X3_declared_field_survives :
  forall (set_iter : PySet -> list string) (env : Env)
         (table : list Translation) (options : Options)
         (cts : list ContentType) (ct : ContentType) (model : Model)
         (F : list string) (row : Translation),
    pk_unique (ContentType_objects env) ->
    get_content_types env (app_label options) = inr cts ->
    In ct cts ->
    model_class ct = Some model ->
    translatable_fields model = Some F ->
    ct_pk (content_type row) = ct_pk ct ->
    In (field row) F ->
    In row table ->
    In row (table_after (run_handle set_iter env table options)).
Proof.
  intros set_iter env table options cts ct model F row
         Hpk Hcts Hin Hm HF Hrow Hfield Htable.
  apply unselected_row_survives; [|exact Htable].
  intros query Hq.
  destruct (fetch_query_scope _ _ _ Hq) as (cts' & Hcts' & Hbuild).
  assert (cts' = cts) by congruence. subst cts'.
  assert (Hpk' : pk_unique cts).
  { intros a b Ha Hb.
    apply Hpk; now apply (get_content_types_incl _ _ _ Hcts). }
  rewrite (build_query_matches cts _ _ Hbuild row).
  destruct cts as [|c cs]; [contradiction|].
  cbn [Q_bool andb orb].
  rewrite (stale_in_unique (c :: cs) ct model row Hpk' Hin Hm Hrow).
  rewrite matches_model_query, HF.
  apply str_in_In in Hfield. rewrite Hfield. cbn [negb].
  apply andb_false_r.
Qed.

(** X4: with the label of an application that has a content type, the
    translations of the content types of other applications are in the
    table after the run. *)
Theorem X4_other_applications_are_left_alone :
  forall (set_iter : PySet -> list string) (env : Env)
         (table : list Translation) (options : Options) (l : string)
         (c : ContentType) (row : Translation),
    pk_unique (ContentType_objects env) ->
    app_label options = Some l ->
    l <> "" ->
    In c (ContentType_objects env) ->
    ct_app_label c = l ->
    In (content_type row) (ContentType_objects env) ->
    ct_app_label (content_type row) <> l ->
    In row table ->
    In row (table_after (run_handle set_iter env table options)).
Proof.
  intros set_iter env table options l c row
         Hpk Hl Hne Hc Hcl Hrow Hother Htable.
  apply unselected_row_survives; [|exact Htable].
  intros query Hq. rewrite Hl in Hq.
  destruct (fetch_query_scope _ _ _ Hq) as (cts & Hcts & Hbuild).
  pose proof (get_content_types_label env l cts Hne Hcts) as Hscope.
  rewrite (build_query_matches cts _ _ Hbuild row).
  destruct cts as [|c0 cs] eqn:E.
  - exfalso. apply (proj2 (Hscope c)). now split.
  - cbn [Q_bool andb orb]. rewrite <- E in *.
    destruct (stale_in cts row) eqn:S; [|reflexivity].
    unfold stale_in in S. apply existsb_exists in S.
    destruct S as (ct & Hct & Hm).
    destruct (model_class ct) as [model|]; [|discriminate].
    rewrite matches_model_query in Hm. apply andb_true_iff in Hm.
    destruct Hm as [Hm _]. apply Nat.eqb_eq in Hm.
    apply Hscope in Hct. destruct Hct as [Hct Hlabel].
    assert (content_type row = ct) by (now apply Hpk).
    congruence.
Qed.

Lemma objects_delete_empty_query (table : list Translation) :
  objects_delete Q_empty table = [].
Proof.
  unfold objects_delete. induction table as [|row rest IH]; simpl;
    [reflexivity|exact IH].
Qed.

(** X5: with the label of an application that has no content type, and no
    confirmation asked, the command deletes every row of the table, of
    whatever application. *)
Theorem X5_empty_scope_deletes_every_row :
  forall (set_iter : PySet -> list string) (env : Env)
         (table : list Translation) (options : Options),
    get_content_types env (app_label options) = inr [] ->
    interactive options = false ->
    table <> [] ->
    ((1 <= verbosity options)%Z -> Forall row_has_model_class table) ->
    exists report,
      Forall is_report report /\
      run_handle set_iter env table options
      = {| result := Returned None;
           table_after := [];
           events := EvQuery Q_empty :: report
                     ++ [ EvDelete Q_empty;
                          EvStdout SUCCESS
                            "Successfully synchronized translations." ] |}.
Proof.
  intros set_iter env table options Hcts Hni Hne Hrows.
  destruct (report_of_total set_iter (verbosity options) table Hrows)
    as [report Hrep].
  exists report. split; [exact (report_of_is_report _ _ _ _ Hrep)|].
  rewrite run_handle_cases. unfold fetch_query. rewrite Hcts.
  cbn [build_query].
  rewrite (proj2 (empty_scope_selects_every_row table)).
  destruct table as [|r rs]; [congruence|].
  rewrite Hrep, Hni. now rewrite objects_delete_empty_query.
Qed.

(** X6: after a run that was not asked to confirm and that returned, a
    second run finds nothing to synchronize and leaves the table as the
    first run left it. *)
Theorem X6_second_run_finds_nothing :
  forall (set_iter : PySet -> list string) (env : Env)
         (table : list Translation) (options : Options),
    interactive options = false ->
    result (run_handle set_iter env table options) = Returned None ->
    exists query,
      fetch_query env (app_label options) = inr query
      /\ run_handle set_iter env
                    (table_after (run_handle set_iter env table options))
                    options
         = {| result := Returned None;
              table_after :=
                table_after (run_handle set_iter env table options);
              events := [ EvQuery query;
                          EvStdout SUCCESS
                            "No translations to synchronize." ] |}.
Proof.
  intros set_iter env table options Hni Hret.
  rewrite run_handle_cases in Hret.
  destruct (fetch_query env (app_label options)) as [e|query] eqn:Hq;
    [discriminate|].
  exists query. split; [reflexivity|].
  assert (Hfirst : table_after (run_handle set_iter env table options)
                   = objects_delete query table).
  { rewrite run_handle_cases, Hq.
    destruct (objects_filter query table) as [|r rs] eqn:E.
    - cbn [table_after]. symmetry. now apply objects_delete_nothing.
    - destruct (report_of set_iter (verbosity options) (r :: rs))
        as [e|report]; [discriminate|].
      now rewrite Hni. }
  rewrite Hfirst, run_handle_cases, Hq.
  now rewrite objects_filter_delete.
Qed.

(** ** Exceptions *)

(** X7: an interrupt at the prompt writes the cancellation to the error
    stream and exits with status 1; nothing is deleted. *)
Theorem X7_interrupt_at_the_prompt_exits :
  forall (set_iter : PySet -> list string) (env : Env)
         (table : list Translation) (options : Options) (query : Q),
    interactive options = true ->
    not_a_tty env = false ->
    stdin_input env = inl KeyboardInterrupt ->
    fetch_query env (app_label options) = inr query ->
    objects_filter query table <> [] ->
    ((1 <= verbosity options)%Z ->
     Forall row_has_model_class (objects_filter query table)) ->
    exists report,
      Forall is_report report /\
      run_handle set_iter env table options
      = {| result := Raised (SystemExit 1);
           table_after := table;
           events := EvQuery query :: report
                     ++ [ EvInput prompt;
                          EvStderr (nl ++ "Operation cancelled.") ] |}.
Proof.
  intros set_iter env table options query Hi Htty Hin Hq Hne Hrows.
  destruct (report_of_total set_iter (verbosity options) _ Hrows)
    as [report Hrep].
  exists report. split; [exact (report_of_is_report _ _ _ _ Hrep)|].
  rewrite run_handle_cases, Hq.
  destruct (objects_filter query table) as [|r rs]; [congruence|].
  now rewrite Hrep, Hi, Htty, Hin.
Qed.

(** X8: an exception of [input] that no [except] clause names (an
    [EOFError], say) leaves [handle] as it is; nothing is written after the
    prompt and nothing is deleted. *)
Theorem X8_other_input_errors_propagate :
  forall (set_iter : PySet -> list string) (env : Env)
         (table : list Translation) (options : Options) (query : Q)
         (e : Exception),
    interactive options = true ->
    not_a_tty env = false ->
    stdin_input env = inl e ->
    e <> KeyboardInterrupt ->
    (forall msg, e <> NotRunningInTTYException msg) ->
    fetch_query env (app_label options) = inr query ->
    objects_filter query table <> [] ->
    ((1 <= verbosity options)%Z ->
     Forall row_has_model_class (objects_filter query table)) ->
    exists report,
      Forall is_report report /\
      run_handle set_iter env table options
      = {| result := Raised e;
           table_after := table;
           events := EvQuery query :: report ++ [EvInput prompt] |}.
Proof.
  intros set_iter env table options query e Hi Htty Hin Hki Hnt Hq Hne Hrows.
  destruct (report_of_total set_iter (verbosity options) _ Hrows)
    as [report Hrep].
  exists report. split; [exact (report_of_is_report _ _ _ _ Hrep)|].
  rewrite run_handle_cases, Hq.
  destruct (objects_filter query table) as [|r rs]; [congruence|].
  rewrite Hrep, Hi, Htty, Hin.
  destruct e; try reflexivity.
  - congruence.
  - now elim (Hnt msg).
Qed.

Lemma build_query_missing_model (cts : list ContentType) :
  Exists (fun ct => model_class ct = None) cts ->
  forall q0, build_query cts q0 = inl TypeError.
Proof.
  induction 1 as [ct rest Hct|ct rest _ IH]; intros q0; simpl.
  - now rewrite Hct.
  - destruct (model_class ct); [apply IH|reflexivity].
Qed.

Lemma collect_changes_missing_model (queryset : list Translation) :
  Exists (fun row => model_class (content_type row) = None) queryset ->
  forall changes, collect_changes queryset changes = inl AttributeError.
Proof.
  induction 1 as [row rest Hrow|row rest _ IH]; intros changes; simpl.
  - now rewrite Hrow.
  - destruct (model_class (content_type row)); [apply IH|reflexivity].
Qed.

(** X9: a content type in scope whose model is no longer installed makes
    the command raise [TypeError] before it queries, writes or deletes
    anything. *)
Theorem X9_missing_model_in_scope_raises :
  forall (set_iter : PySet -> list string) (env : Env)
         (table : list Translation) (options : Options)
         (cts : list ContentType),
    get_content_types env (app_label options) = inr cts ->
    Exists (fun ct => model_class ct = None) cts ->
    run_handle set_iter env table options
    = {| result := Raised TypeError; table_after := table; events := [] |}.
Proof.
  intros set_iter env table options cts Hcts Hgone.
  rewrite run_handle_cases. unfold fetch_query. rewrite Hcts.
  now rewrite (build_query_missing_model cts Hgone).
Qed.

(** X10: at verbosity 1 and above, a candidate row whose content type has
    no model makes the command raise [AttributeError] after the query,
    before it writes, prompts or deletes. *)
Theorem X10_missing_model_in_report_raises :
  forall (set_iter : PySet -> list string) (env : Env)
         (table : list Translation) (options : Options) (query : Q),
    fetch_query env (app_label options) = inr query ->
    (1 <= verbosity options)%Z ->
    Exists (fun row => model_class (content_type row) = None)
           (objects_filter query table) ->
    run_handle set_iter env table options
    = {| result := Raised AttributeError;
         table_after := table;
         events := [EvQuery query] |}.
Proof.
  intros set_iter env table options query Hq Hv Hgone.
  rewrite run_handle_cases, Hq.
  destruct (objects_filter query table) as [|r rs] eqn:E;
    [inversion Hgone|].
  unfold report_of.
  destruct (Z.leb_spec 1 (verbosity options)) as [_|Hlt]; [|lia].
  now rewrite (collect_changes_missing_model (r :: rs) Hgone).
Qed.

(** ** The prompt and the input stream *)

Lemma lower_ascii_idempotent (c : ascii) :
  lower_ascii (lower_ascii c) = lower_ascii c.
Proof.
  destruct c as [[] [] [] [] [] [] [] []]; reflexivity.
Qed.

Lemma lower_idempotent (s : string) : lower (lower s) = lower s.
Proof.
  induction s as [|c rest IH]; simpl; [reflexivity|].
  now rewrite lower_ascii_idempotent, IH.
Qed.

(** X11: the answer at the prompt is read without regard to case: a line
    and the same line in lower case give the same run. *)
Theorem X11_answer_is_case_insensitive :
  forall (set_iter : PySet -> list string) (env : Env)
         (table : list Translation) (options : Options) (line : string),
    run_handle set_iter (with_input env (inr line)) table options
    = run_handle set_iter (with_input env (inr (lower line))) table options.
Proof.
  intros set_iter env table options line.
  rewrite !run_handle_cases. cbn [with_input stdin_input].
  assert (Ha : answer_of (lower line) = answer_of line).
  { unfold answer_of, raw_value. now rewrite lower_idempotent. }
  rewrite Ha. reflexivity.
Qed.

(** X12: an input stream that has no [isatty] attribute is prompted like a
    terminal. *)
Theorem X12_stdin_without_isatty_is_prompted :
  forall (set_iter : PySet -> list string) (env : Env)
         (table : list Translation) (options : Options),
    run_handle set_iter (with_isatty env None) table options
    = run_handle set_iter (with_isatty env (Some true)) table options.
Proof.
  intros set_iter env table options.
  rewrite !run_handle_cases. reflexivity.
Qed.

(** X13: with [--noinput] the run does not depend on the input stream:
    neither on what [isatty] says nor on what [input] would give. *)
Theorem X13_noinput_ignores_stdin :
  forall (set_iter : PySet -> list string) (env : Env)
         (table : list Translation) (options : Options)
         (isatty : option bool) (answer : Exception + string),
    interactive options = false ->
    run_handle set_iter (with_isatty (with_input env answer) isatty)
               table options
    = run_handle set_iter env table options.
Proof.
  intros set_iter env table options isatty answer Hni.
  rewrite !run_handle_cases, Hni. reflexivity.
Qed.

Lemma report_has_no_prompt (report : list Event) :
  Forall is_report report -> prompts report = [].
Proof.
  unfold prompts. induction 1 as [|e rest [msg ->] _ IH]; simpl;
    [reflexivity|exact IH].
Qed.

(** X14: a run prompts at most once, with the one prompt text, and only when
    it was asked to confirm and the input stream does not say that it is
    not a terminal. *)
Theorem X14_at_most_one_prompt :
  forall (set_iter : PySet -> list string) (env : Env)
         (table : list Translation) (options : Options),
    (prompts (events (run_handle set_iter env table options)) = []
     \/ prompts (events (run_handle set_iter env table options))
        = [EvInput prompt])
    /\ (prompts (events (run_handle set_iter env table options)) <> [] ->
        interactive options = true /\ not_a_tty env = false).
Proof.
  intros set_iter env table options. rewrite run_handle_cases.
  destruct (fetch_query env (app_label options)) as [e|query];
    [split; [now left|intros H; now elim H]|].
  destruct (objects_filter query table) as [|r rs];
    [split; [now left|intros H; now elim H]|].
  destruct (report_of set_iter (verbosity options) (r :: rs))
    as [e|report] eqn:R;
    [split; [now left|intros H; now elim H]|].
  pose proof (report_has_no_prompt report (report_of_is_report _ _ _ _ R))
    as Hrep.
  unfold prompts in *.
  destruct (interactive options);
    [destruct (not_a_tty env);
     [|destruct (stdin_input env) as [[]|line]]|];
    cbn [events filter is_input]; rewrite filter_app, Hrep;
    cbn [filter is_input app];
    (split; [auto|intros H; try (now elim H); auto]).
Qed.

(** X15: the verbosity changes what is written and nothing else: when every
    row of the table has its model, the result and the table after the run
    are the same at every verbosity. *)
Theorem X15_verbosity_changes_the_report_only :
  forall (set_iter : PySet -> list string) (env : Env)
         (table : list Translation) (options : Options) (v : Z),
    Forall row_has_model_class table ->
    result (run_handle set_iter env table (with_verbosity options v))
    = result (run_handle set_iter env table options)
    /\ table_after (run_handle set_iter env table (with_verbosity options v))
       = table_after (run_handle set_iter env table options).
Proof.
  intros set_iter env table options v Hrows.
  rewrite !run_handle_cases. cbn [with_verbosity app_label interactive verbosity].
  destruct (fetch_query env (app_label options)) as [e|query];
    [now split|].
  assert (Hsel : Forall row_has_model_class (objects_filter query table)).
  { rewrite Forall_forall in *. intros row Hrow.
    apply Hrows. unfold objects_filter in Hrow.
    now apply filter_In in Hrow. }
  destruct (objects_filter query table) as [|r rs]; [now split|].
  destruct (report_of_total set_iter v (r :: rs) (fun _ => Hsel))
    as [report1 H1].
  destruct (report_of_total set_iter (verbosity options) (r :: rs)
                            (fun _ => Hsel)) as [report2 H2].
  rewrite H1, H2.
  destruct (interactive options);
    [destruct (not_a_tty env);
     [|destruct (stdin_input env) as [[]|line]]|];
    now split.
Qed.

(** X16: the command writes that it synchronized exactly when it issued the
    delete. *)
Theorem X16_success_exactly_when_deleted :
  forall (set_iter : PySet -> list string) (env : Env)
         (table : list Translation) (options : Options),
    (exists q, In (EvDelete q)
                  (events (run_handle set_iter env table options)))
    <-> In (EvStdout SUCCESS "Successfully synchronized translations.")
           (events (run_handle set_iter env table options)).
Proof.
  intros set_iter env table options. rewrite run_handle_cases.
  destruct (fetch_query env (app_label options)) as [e|query];
    [split; [intros [q []]|intros []]|].
  destruct (objects_filter query table) as [|r rs];
    [split; [intros [q H]|intros H]; simpl in H; intuition discriminate|].
  destruct (report_of set_iter (verbosity options) (r :: rs))
    as [e|report] eqn:R;
    [split; [intros [q H]|intros H]; simpl in H; intuition discriminate|].
  pose proof (report_of_is_report _ _ _ _ R) as Hrep.
  destruct (interactive options);
    [destruct (not_a_tty env);
     [|destruct (stdin_input env) as [[]|line]]|].
  1-9: split; [intros [q H]; exfalso; revert H; not_in_trace Hrep
              |intros H; exfalso; revert H; not_in_trace Hrep].
  split; intros _.
  - cbn [events]. right. apply in_or_app. right. simpl. auto.
  - exists query. cbn [events]. right. apply in_or_app. right. simpl. auto.
Qed.

(** ** These properties on the example projects *)

Lemma example_table_has_model_classes :
  Forall row_has_model_class example_table.
Proof.
  repeat constructor; unfold row_has_model_class, has_model_class; simpl;
    discriminate.
Defined.

Lemma X1_witness :
  table_after (run_handle insertion_order (example_env true (inr "y"))
                          example_table (options_of 1 true None))
  = example_table
  /\ forall q,
       ~ In (EvDelete q)
            (events (run_handle insertion_order (example_env true (inr "y"))
                                example_table (options_of 1 true None))).
Proof.
  apply (X1_interactive_run_never_deletes
           insertion_order (example_env true (inr "y")) example_table
           (options_of 1 true None)).
  reflexivity.
Defined.

Lemma X3_witness :
  In (row_of article_type "title")
     (table_after (run_handle insertion_order (example_env true (inr ""))
                              example_table (options_of 1 false None))).
Proof.
  apply (X3_declared_field_survives
           insertion_order (example_env true (inr "")) example_table
           (options_of 1 false None) [article_type; legacy_type]
           article_type Article ["title"; "body"]
           (row_of article_type "title")).
  - exact example_pk_unique.
  - reflexivity.
  - simpl. auto.
  - reflexivity.
  - reflexivity.
  - reflexivity.
  - simpl. auto.
  - simpl. auto.
Defined.

Lemma X4_witness :
  In (row_of article_type "subtitle")
     (table_after (run_handle insertion_order (example_env true (inr ""))
                              example_table
                              (options_of 1 false (Some "pages")))).
Proof.
  apply (X4_other_applications_are_left_alone
           insertion_order (example_env true (inr "")) example_table
           (options_of 1 false (Some "pages")) "pages" legacy_type
           (row_of article_type "subtitle")).
  - exact example_pk_unique.
  - reflexivity.
  - discriminate.
  - simpl. auto.
  - reflexivity.
  - simpl. auto.
  - discriminate.
  - simpl. auto.
Defined.

Lemma X5_witness :
  exists report,
    Forall is_report report /\
    run_handle insertion_order tools_env example_table
               (options_of 1 false (Some "tools"))
    = {| result := Returned None;
         table_after := [];
         events := EvQuery Q_empty :: report
                   ++ [ EvDelete Q_empty;
                        EvStdout SUCCESS
                          "Successfully synchronized translations." ] |}.
Proof.
  apply (X5_empty_scope_deletes_every_row
           insertion_order tools_env example_table
           (options_of 1 false (Some "tools"))).
  - reflexivity.
  - reflexivity.
  - discriminate.
  - intros _. exact example_table_has_model_classes.
Defined.

Lemma X6_witness :
  exists query,
    fetch_query (example_env true (inr "")) None = inr query
    /\ run_handle insertion_order (example_env true (inr ""))
                  (table_after
                     (run_handle insertion_order (example_env true (inr ""))
                                 example_table (options_of 1 false None)))
                  (options_of 1 false None)
       = {| result := Returned None;
            table_after :=
              table_after
                (run_handle insertion_order (example_env true (inr ""))
                            example_table (options_of 1 false None));
            events := [ EvQuery query;
                        EvStdout SUCCESS
                          "No translations to synchronize." ] |}.
Proof.
  apply (X6_second_run_finds_nothing
           insertion_order (example_env true (inr "")) example_table
           (options_of 1 false None)).
  - reflexivity.
  - reflexivity.
Defined.

Lemma X7_witness :
  exists report,
    Forall is_report report /\
    run_handle insertion_order (example_env true (inl KeyboardInterrupt))
               example_table (options_of 1 true None)
    = {| result := Raised (SystemExit 1);
         table_after := example_table;
         events := EvQuery example_query :: report
                   ++ [ EvInput prompt;
                        EvStderr (nl ++ "Operation cancelled.") ] |}.
Proof.
  apply (X7_interrupt_at_the_prompt_exits
           insertion_order (example_env true (inl KeyboardInterrupt))
           example_table (options_of 1 true None) example_query).
  - reflexivity.
  - reflexivity.
  - reflexivity.
  - reflexivity.
  - discriminate.
  - intros _. exact example_stale_has_model_classes.
Defined.

Lemma X8_witness :
  exists report,
    Forall is_report report /\
    run_handle insertion_order (example_env true (inl EOFError))
               example_table (options_of 1 true None)
    = {| result := Raised EOFError;
         table_after := example_table;
         events := EvQuery example_query :: report ++ [EvInput prompt] |}.
Proof.
  apply (X8_other_input_errors_propagate
           insertion_order (example_env true (inl EOFError))
           example_table (options_of 1 true None) example_query EOFError).
  - reflexivity.
  - reflexivity.
  - reflexivity.
  - discriminate.
  - discriminate.
  - reflexivity.
  - discriminate.
  - intros _. exact example_stale_has_model_classes.
Defined.

Lemma X9_witness :
  run_handle insertion_order tools_env example_table (options_of 1 false None)
  = {| result := Raised TypeError;
       table_after := example_table;
       events := [] |}.
Proof.
  apply (X9_missing_model_in_scope_raises
           insertion_order tools_env example_table (options_of 1 false None)
           [article_type; gone_type]).
  - reflexivity.
  - apply Exists_cons_tl, Exists_cons_hd. reflexivity.
Defined.

Lemma X10_witness :
  run_handle insertion_order tools_env [row_of gone_type "title"]
             (options_of 1 false (Some "tools"))
  = {| result := Raised AttributeError;
       table_after := [row_of gone_type "title"];
       events := [EvQuery Q_empty] |}.
Proof.
  apply (X10_missing_model_in_report_raises
           insertion_order tools_env [row_of gone_type "title"]
           (options_of 1 false (Some "tools")) Q_empty).
  - reflexivity.
  - simpl. lia.
  - apply Exists_cons_hd. reflexivity.
Defined.

Lemma X13_witness :
  run_handle insertion_order
             (with_isatty (with_input (example_env true (inr ""))
                                      (inl EOFError))
                          (Some false))
             example_table (options_of 1 false None)
  = run_handle insertion_order (example_env true (inr "")) example_table
               (options_of 1 false None).
Proof.
  apply (X13_noinput_ignores_stdin
           insertion_order (example_env true (inr "")) example_table
           (options_of 1 false None) (Some false) (inl EOFError)).
  reflexivity.
Defined.

Lemma X15_witness :
  result (run_handle insertion_order (example_env true (inr ""))
                     example_table
                     (with_verbosity (options_of 0 false None) 2))
  = result (run_handle insertion_order (example_env true (inr ""))
                       example_table (options_of 0 false None))
  /\ table_after (run_handle insertion_order (example_env true (inr ""))
                             example_table
                             (with_verbosity (options_of 0 false None) 2))
     = table_after (run_handle insertion_order (example_env true (inr ""))
                               example_table (options_of 0 false None)).
Proof.
  apply (X15_verbosity_changes_the_report_only
           insertion_order (example_env true (inr "")) example_table
           (options_of 0 false None) 2).
  exact example_table_has_model_classes.
Defined.

(** ** The order of the content types *)

Lemma build_query_classes (cts : list ContentType) :
  forall q0 q, build_query cts q0 = inr q -> Forall has_model_class cts.
Proof.
  induction cts as [|ct rest IH]; intros q0 q Hq; simpl in Hq.
  - constructor.
  - destruct (model_class ct) as [model|] eqn:E; [|discriminate].
    constructor; [|now apply (IH _ _ Hq)].
    unfold has_model_class. congruence.
Qed.

Lemma stale_in_permutation (cts cts' : list ContentType)
      (row : Translation) :
  Permutation cts cts' -> stale_in cts row = stale_in cts' row.
Proof.
  unfold stale_in.
  induction 1 as [|x l l' _ IH|x y l|l l' l'' _ IH1 _ IH2]; simpl.
  - reflexivity.
  - now rewrite IH.
  - rewrite !orb_assoc. f_equal. apply orb_comm.
  - now rewrite IH1.
Qed.

(** X17: the candidate set does not depend on the order in which the
    content types of the scope come out of the table. *)
Theorem X17_scope_order_is_irrelevant :
  forall (cts cts' : list ContentType) (query : Q),
    Permutation cts cts' ->
    build_query cts Q_empty = inr query ->
    exists query',
      build_query cts' Q_empty = inr query'
      /\ forall table,
           objects_filter query' table = objects_filter query table.
Proof.
  intros cts cts' query Hperm Hq.
  pose proof (build_query_classes cts _ _ Hq) as Hall.
  destruct (build_query_total cts' (Permutation_Forall Hperm Hall) Q_empty)
    as [query' Hq'].
  exists query'. split; [exact Hq'|].
  intros table. unfold objects_filter. apply filter_ext. intros row.
  rewrite (build_query_matches cts' _ _ Hq' row).
  rewrite (build_query_matches cts _ _ Hq row).
  destruct cts as [|c cs].
  - apply Permutation_nil in Hperm. now subst cts'.
  - destruct cts' as [|c' cs'].
    + apply Permutation_sym, Permutation_nil in Hperm. discriminate.
    + cbn [Q_bool andb orb]. symmetry. now apply stale_in_permutation.
Qed.

Lemma X17_witness :
  exists query',
    build_query [legacy_type; article_type] Q_empty = inr query'
    /\ forall table,
         objects_filter query' table = objects_filter example_query table.
Proof.
  apply (X17_scope_order_is_irrelevant
           [article_type; legacy_type] [legacy_type; article_type]
           example_query).
  - apply perm_swap.
  - reflexivity.
Defined.
